(** * tui-monitor: the CanSat emitter loop (main.py) and the file logger
      (test_tobias.py), embedded in Rocq.

    Python values are modelled as follows.
    - [int] is [Z] (Python integers do not wrap).
    - [float] is a binary64 primitive float.  A float is inspected only
      through [Prim2SF], which gives its sign, mantissa and exponent, so
      that the decimal text produced by [%f] is computed from the exact
      binary value, rounded to nearest with ties to even.
    - [str] is [string]; only the ASCII range is given a meaning by [upper]
      and [strip], which is what MicroPython implements.
    - the peripherals (pressure sensor, radio, LED, clock) are not part of
      the repository: every value read from them is an input of the loop
      body, and every command sent to them is recorded as an event. *)

From Stdlib Require Import ZArith List Bool Lia.
From Stdlib Require Import Ascii String DecimalString.
From Stdlib Require Import PrimFloat FloatOps SpecFloat.
From Stdlib Require DecimalPos DecimalZ.
Import ListNotations.

Set Warnings "-inexact-float".

#[local] Open Scope string_scope.
#[local] Open Scope Z_scope.

(* ================================================================== *)
(** * Definitions *)
(* ================================================================== *)

(** ** Python strings *)

Module PyStr.

(** [len(s)] as a Python integer. *)
Definition len (s : string) : Z := Z.of_nat (String.length s).

(** [n * c] for a one-character string [c] and a natural count. *)
Fixpoint replicate (n : nat) (c : ascii) : string :=
  match n with
  | O => EmptyString
  | S k => String c (replicate k c)
  end.

(** [" " * k] for a Python integer [k]: a count that is not positive gives
    the empty string. *)
Definition mul_space (k : Z) : string := replicate (Z.to_nat k) " "%char.

(** Right-justify in a field of [width] characters, filling with [c]. *)
Definition rjust (width : nat) (c : ascii) (s : string) : string :=
  replicate (width - String.length s) c ++ s.

Definition is_digit (c : ascii) : bool :=
  let n := nat_of_ascii c in (48 <=? n)%nat && (n <=? 57)%nat.

Definition is_lower (c : ascii) : bool :=
  let n := nat_of_ascii c in (97 <=? n)%nat && (n <=? 122)%nat.

(** The characters [str.strip()] removes: space, TAB, LF, VT, FF, CR. *)
Definition is_space (c : ascii) : bool :=
  let n := nat_of_ascii c in
  (n =? 32)%nat || ((9 <=? n)%nat && (n <=? 13)%nat).

Fixpoint forallb (p : ascii -> bool) (s : string) : bool :=
  match s with
  | EmptyString => true
  | String c r => p c && forallb p r
  end.

Fixpoint existsb (p : ascii -> bool) (s : string) : bool :=
  match s with
  | EmptyString => false
  | String c r => p c || existsb p r
  end.

Fixpoint map (f : ascii -> ascii) (s : string) : string :=
  match s with
  | EmptyString => EmptyString
  | String c r => String (f c) (map f r)
  end.

Definition to_upper (c : ascii) : ascii :=
  if is_lower c then ascii_of_nat (nat_of_ascii c - 32) else c.

(** [s.upper()] *)
Definition upper (s : string) : string := map to_upper s.

(** [s.lstrip()] *)
Fixpoint lstrip (s : string) : string :=
  match s with
  | EmptyString => EmptyString
  | String c r => if is_space c then lstrip r else s
  end.

(** [s.rstrip()]: a character is dropped when it is white space and
    everything after it has been dropped. *)
Fixpoint rstrip (s : string) : string :=
  match s with
  | EmptyString => EmptyString
  | String c r =>
      match rstrip r with
      | EmptyString => if is_space c then EmptyString else String c EmptyString
      | r' => String c r'
      end
  end.

(** [s.strip()] *)
Definition strip (s : string) : string := rstrip (lstrip s).

(** [str(n)] for an integer, also what [%d] prints. *)
Definition of_int (n : Z) : string := NilZero.string_of_int (Z.to_int n).

(** [bytes(s, "utf-8")] on a string of ASCII characters: one byte per
    character. *)
Definition to_bytes (s : string) : list Byte.byte := list_byte_of_string s.

End PyStr.

(** ** Python number formatting *)

Module PyFmt.

(** ["%d" % n] *)
Definition pct_d (n : Z) : string := PyStr.of_int n.

(** [format(n, "0Wd")], the [{n:02d}] and [{n:03d}] of an f-string: zero
    fill is sign-aware, the sign comes first and counts in the width. *)
Definition zfill_d (width : nat) (n : Z) : string :=
  if n <? 0
  then String "-" (PyStr.rjust (width - 1) "0" (PyStr.of_int (- n)))
  else PyStr.rjust width "0" (PyStr.of_int n).

(** Nearest integer to [num / den], ties to the even one
    ([0 <= num], [0 < den]). *)
Definition round_half_even (num den : Z) : Z :=
  let q := num / den in
  let r := num mod den in
  match 2 * r ?= den with
  | Lt => q
  | Gt => q + 1
  | Eq => if Z.even q then q else q + 1
  end.

(** [|x| * 10^prec] rounded to an integer, for [|x| = m * 2^e]. *)
Definition scaled (prec : nat) (m : positive) (e : Z) : Z :=
  if 0 <=? e
  then Z.pos m * 2 ^ e * 10 ^ Z.of_nat prec
  else round_half_even (Z.pos m * 10 ^ Z.of_nat prec) (2 ^ (- e)).

(** The digits of [n] with a decimal point before the last [prec] ones;
    there is always a digit before the point. *)
Definition point (prec : nat) (n : Z) : string :=
  let ds := PyStr.rjust (S prec) "0" (PyStr.of_int n) in
  let k := (String.length ds - prec)%nat in
  match prec with
  | O => ds
  | _ => substring 0 k ds ++ "." ++ substring k prec ds
  end.

Definition sign (s : bool) : string := if s then "-" else "".

(** ["%.Pf" % x] without a field width. *)
Definition fixed (prec : nat) (x : float) : string :=
  match Prim2SF x with
  | S754_zero s => sign s ++ point prec 0
  | S754_finite s m e => sign s ++ point prec (scaled prec m e)
  | S754_infinity s => sign s ++ "inf"
  | S754_nan => "nan"
  end.

(** A number given to [%f]: Python converts an [int] to [float] first. *)
Inductive pynum : Type :=
| PyInt (z : Z)
| PyFloat (x : float).

(** [float(z)], rounded to nearest even (an overflow gives an infinity
    here, where Python raises; the program only ever passes 0). *)
Definition float_of_int (z : Z) : float :=
  SF2Prim (binary_normalize prec emax z 0 false).

Definition to_float (v : pynum) : float :=
  match v with
  | PyInt z => float_of_int z
  | PyFloat x => x
  end.

(** ["%W.Pf" % v]: right-justified with spaces in [width] characters. *)
Definition pct_f (width prec : nat) (v : pynum) : string :=
  PyStr.rjust width " " (fixed prec (to_float v)).

Definition is_finite (x : float) : bool :=
  match Prim2SF x with
  | S754_zero _ | S754_finite _ _ _ => true
  | _ => false
  end.

(** The text is a fixed-point numeral with exactly [prec] decimals: an
    optional minus sign, at least one digit, a point, [prec] digits. *)
Definition unsigned_shape (prec : nat) (s : string) : bool :=
  let n := String.length s in
  let k := (n - S prec)%nat in
  (S (S prec) <=? n)%nat
  && PyStr.forallb PyStr.is_digit (substring 0 k s)
  && String.eqb (substring k 1 s) "."
  && PyStr.forallb PyStr.is_digit (substring (S k) prec s).

Definition fixed_shape (prec : nat) (s : string) : bool :=
  match s with
  | String "-" r => unsigned_shape prec r
  | _ => unsigned_shape prec s
  end.

(** The characters of a numeral, and those of the telemetry message. *)
Definition numeral_char (c : ascii) : bool :=
  PyStr.is_digit c || Ascii.eqb c "." || Ascii.eqb c "-".

Definition payload_char (c : ascii) : bool :=
  numeral_char c || Ascii.eqb c " ".

(** The text is a decimal integer: an optional minus sign and at least
    one digit. *)
Definition int_shape (s : string) : bool :=
  match s with
  | String "-" r => negb (String.eqb r "") && PyStr.forallb PyStr.is_digit r
  | _ => negb (String.eqb s "") && PyStr.forallb PyStr.is_digit s
  end.

(** *** The [%] operator on a format string

    The format is read character by character.  Only what the program
    uses is given a meaning: literal text, [%%], [%Wd] and [%W.Pf] with
    an optional width and precision (six decimals when [f] has none).
    Flags, other conversions and a float given to [%d] are outside the
    model and give [None], as do the cases where Python raises (too few
    or too many arguments, an unfinished directive). *)

Inductive directive : Type :=
| Lit (c : ascii)
| ConvD (width : nat)
| ConvF (width prec : nat).

Inductive pstate : Type :=
| Text
| Pct
| Width (w : nat)
| Prec (w p : nat).

Definition digit_val (c : ascii) : nat := (nat_of_ascii c - 48)%nat.

Definition conv (c : ascii) (w : nat) (p : option nat) : option directive :=
  if Ascii.eqb c "d" then
    match p with None => Some (ConvD w) | Some _ => None end
  else if Ascii.eqb c "f" then
    Some (ConvF w (match p with None => 6%nat | Some p => p end))
  else None.

Fixpoint parse (st : pstate) (s : string) : option (list directive) :=
  match s with
  | EmptyString => match st with Text => Some [] | _ => None end
  | String c r =>
      match st with
      | Text =>
          if Ascii.eqb c "%" then parse Pct r
          else option_map (cons (Lit c)) (parse Text r)
      | Pct =>
          if Ascii.eqb c "%" then option_map (cons (Lit c)) (parse Text r)
          else if Ascii.eqb c "0" then None
          else if PyStr.is_digit c then parse (Width (digit_val c)) r
          else if Ascii.eqb c "." then parse (Prec 0 0) r
          else match conv c 0 None with
               | Some d => option_map (cons d) (parse Text r)
               | None => None
               end
      | Width w =>
          if PyStr.is_digit c then parse (Width (10 * w + digit_val c)) r
          else if Ascii.eqb c "." then parse (Prec w 0) r
          else match conv c w None with
               | Some d => option_map (cons d) (parse Text r)
               | None => None
               end
      | Prec w p =>
          if PyStr.is_digit c then parse (Prec w (10 * p + digit_val c)) r
          else match conv c w (Some p) with
               | Some d => option_map (cons d) (parse Text r)
               | None => None
               end
      end
  end.

Fixpoint render (ds : list directive) (args : list pynum) : option string :=
  match ds with
  | [] => match args with [] => Some "" | _ => None end
  | Lit c :: ds' => option_map (String c) (render ds' args)
  | ConvD w :: ds' =>
      match args with
      | PyInt n :: args' =>
          option_map (append (PyStr.rjust w " " (pct_d n))) (render ds' args')
      | _ => None
      end
  | ConvF w p :: ds' =>
      match args with
      | v :: args' => option_map (append (pct_f w p v)) (render ds' args')
      | [] => None
      end
  end.

(** [fmt % (a1, ..., an)] *)
Definition format (fmt : string) (args : list pynum) : option string :=
  match parse Text fmt with
  | Some ds => render ds args
  | None => None
  end.

End PyFmt.

(** ** main.py: the emitter node *)

Module Main.
Import PyFmt.

Definition FREQ : float := 433.1%float.
Definition ENCRYPTION_KEY : list Z :=
  [1; 2; 3; 4; 5; 6; 7; 8; 1; 2; 3; 4; 5; 6; 7; 8].
Definition NODE_ID : Z := 120.
Definition BASESTATION_ID : Z := 100.

(** The attributes of the radio driver object [rfm] that the program
    assigns. *)
Record Radio : Type := {
  frequency_mhz : float;
  tx_power : Z;
  encryption_key : list Z;
  node : Z;
  destination : Z;
  ack_retries : Z;
  ack_wait : float
}.

(** The assignments to [rfm] before the loop, in program order, on the
    object as the driver's constructor left it. *)
Definition configure (rfm : Radio) : Radio :=
  let rfm := {| frequency_mhz := FREQ; tx_power := tx_power rfm;
                encryption_key := encryption_key rfm; node := node rfm;
                destination := destination rfm;
                ack_retries := ack_retries rfm; ack_wait := ack_wait rfm |} in
  let rfm := {| frequency_mhz := frequency_mhz rfm; tx_power := 20;
                encryption_key := encryption_key rfm; node := node rfm;
                destination := destination rfm;
                ack_retries := ack_retries rfm; ack_wait := ack_wait rfm |} in
  let rfm := {| frequency_mhz := frequency_mhz rfm; tx_power := tx_power rfm;
                encryption_key := ENCRYPTION_KEY; node := node rfm;
                destination := destination rfm;
                ack_retries := ack_retries rfm; ack_wait := ack_wait rfm |} in
  let rfm := {| frequency_mhz := frequency_mhz rfm; tx_power := tx_power rfm;
                encryption_key := encryption_key rfm; node := NODE_ID;
                destination := destination rfm;
                ack_retries := ack_retries rfm; ack_wait := ack_wait rfm |} in
  let rfm := {| frequency_mhz := frequency_mhz rfm; tx_power := tx_power rfm;
                encryption_key := encryption_key rfm; node := node rfm;
                destination := BASESTATION_ID;
                ack_retries := ack_retries rfm; ack_wait := ack_wait rfm |} in
  let rfm := {| frequency_mhz := frequency_mhz rfm; tx_power := tx_power rfm;
                encryption_key := encryption_key rfm; node := node rfm;
                destination := destination rfm;
                ack_retries := 2; ack_wait := ack_wait rfm |} in
  {| frequency_mhz := frequency_mhz rfm; tx_power := tx_power rfm;
     encryption_key := encryption_key rfm; node := node rfm;
     destination := destination rfm;
     ack_retries := ack_retries rfm; ack_wait := 1.0%float |}.

(** The program's own variables that live across iterations. *)
Record Vars : Type := {
  counter : Z;
  last_rssi : option float
}.

Definition initial : Vars := {| counter := 1; last_rssi := None |}.

(** Day's pressure at sea level. *)
Definition baseline : float := 1032.0%float.

(** The peripherals, as far as the loop reads from them.  [W] is the
    state of the outside world; each operation answers and moves it on.
    - [raw_values]: the [bmp.raw_values] property, a triple
      (temperature, pressure, humidity), read again at every access;
    - [send_with_ack]: [rfm.send_with_ack(data)], true when acknowledged;
    - [rssi]: the [rfm.rssi] property. *)
Class Board (W : Type) : Type := {
  raw_values : W -> (float * float * float) * W;
  send_with_ack : list Byte.byte -> W -> bool * W;
  rssi : W -> float * W
}.

(** What the loop commands, in order. *)
Inductive event : Type :=
| LedToggle
| Print (line : string)
| SendWithAck (data : list Byte.byte)
| Sleep (seconds : float).

Definition MSG_FORMAT : string := " %d  %3.1f  %2.2f  %4.2f  %2.2f  %3.6f".
Definition ACK_FORMAT : string := "   +-> ACK received | RSSI (ACK): %3.1f dBm".

(** [0 if last_rssi is None else last_rssi] *)
Definition rssi_or_zero (last_rssi : option float) : pynum :=
  match last_rssi with
  | None => PyInt 0
  | Some r => PyFloat r
  end.

(** [(baseline - sensor_pressure)*8.3] *)
Definition altitude (sensor_pressure : float) : float :=
  ((baseline - sensor_pressure) * 8.3)%float.

(** The text of [msg] for given values of the variables it is built
    from. *)
Definition msg (counter : Z) (last_rssi : option float)
    (sensor_temperature sensor_pressure sensor_humidity altitude : float)
    : option string :=
  format MSG_FORMAT
    [PyInt counter; rssi_or_zero last_rssi; PyFloat sensor_temperature;
     PyFloat sensor_pressure; PyFloat sensor_humidity; PyFloat altitude].

(** The four accesses to [bmp.raw_values] at the head of the loop body:
    the first one, [sensor_all], is not used; the next three provide
    [sensor_temperature], [sensor_pressure] and [sensor_humidity], each
    from its own reading of the sensor. *)
Definition sample {W : Type} (raw_values : W -> (float * float * float) * W)
    (w : W) : float * float * float * W :=
  let '(sensor_all, w) := raw_values w in
  let '(r0, w) := raw_values w in
  let sensor_temperature := fst (fst r0) in
  let '(r1, w) := raw_values w in
  let sensor_pressure := snd (fst r1) in
  let '(r2, w) := raw_values w in
  let sensor_humidity := snd r2 in
  (sensor_temperature, sensor_pressure, sensor_humidity, w).

(** One iteration of [while True].  [None] stands for an exception
    raised by a [%] operator. *)
Definition loop_body {W : Type} `{Board W} (v : Vars) (w : W)
    : option (Vars * W * list event) :=
  let '(sensor_temperature, sensor_pressure, sensor_humidity, w) :=
    sample raw_values w in
  let altitude := altitude sensor_pressure in
  match msg (counter v) (last_rssi v) sensor_temperature
          sensor_pressure sensor_humidity altitude with
  | None => None
  | Some msg =>
      let '(ack, w) := send_with_ack (PyStr.to_bytes msg) w in
      let before := [LedToggle; Print ("Send: " ++ msg);
                     SendWithAck (PyStr.to_bytes msg)] in
      if ack then
        let '(x, w) := rssi w in
        let last_rssi' := Some x in
        let '(y, w) := rssi w in
        match format ACK_FORMAT [PyFloat y] with
        | None => None
        | Some line =>
            Some ({| counter := counter v + 1; last_rssi := last_rssi' |},
                  w, (before ++ [Print line; Sleep 0.1%float])%list)
        end
      else
        Some ({| counter := counter v + 1; last_rssi := last_rssi v |},
              w, (before ++ [Print "   +-> ACK missing"; Sleep 0.1%float])%list)
  end.

(** The first [n] iterations of the loop. *)
Fixpoint run {W : Type} `{Board W} (n : nat) (v : Vars) (w : W)
    : option (Vars * W * list event) :=
  match n with
  | O => Some (v, w, [])
  | S k =>
      match loop_body v w with
      | None => None
      | Some (v', w', tr) =>
          match run k v' w' with
          | None => None
          | Some (v'', w'', tr') => Some (v'', w'', (tr ++ tr')%list)
          end
      end
  end.

(** The payloads handed to the radio and the pauses, read off a trace. *)
Fixpoint sent_payloads (tr : list event) : list (list Byte.byte) :=
  match tr with
  | [] => []
  | SendWithAck d :: tr' => d :: sent_payloads tr'
  | _ :: tr' => sent_payloads tr'
  end.

Fixpoint pauses (tr : list event) : list float :=
  match tr with
  | [] => []
  | Sleep t :: tr' => t :: pauses tr'
  | _ :: tr' => pauses tr'
  end.

(** The outcome of a delivery, named as in the design document, as the
    program observes it: the value of [ack] and, when it is true, the
    value [rfm.rssi] has when it is assigned to [last_rssi]. *)
Inductive DeliveryOutcome : Type :=
| Acknowledged (rssi : float)
| Exhausted.

(** The outcome of the delivery of [data] started in world [w], the
    state in which [send_with_ack] is called. *)
Definition observe {W : Type} `{Board W} (data : list Byte.byte) (w : W)
    : DeliveryOutcome :=
  let '(ack, w) := send_with_ack data w in
  if ack then Acknowledged (fst (rssi w)) else Exhausted.

End Main.

(** ** The retry loop of a delivery *)

Module Delivery.
Import Main.

(** Modelled from the spec: the link transport, which sends one frame
    and waits for an acknowledgment until a deadline.  It belongs to the
    radio driver (module [rfm69]), which is not among the sources.  The
    answer is the signal strength carried by the acknowledgment, or
    [None] when the deadline passes. *)
Class Link (L : Type) : Type := {
  transmit_await : list Byte.byte -> float -> L -> option float * L
}.

(** Modelled from the spec: the loop of [deliver] with
    [attempts_remaining] tries left.  The third component lists the
    frames put on the air, oldest first.  The driver's
    [send_with_ack], which the program calls, is not among the sources;
    the design document describes it as: transmit; on an acknowledgment
    return at once; on a timeout decrement [attempts_remaining], return
    [Exhausted] when it reaches zero and retry otherwise. *)
Fixpoint attempts {L : Type} `{Link L} (attempts_remaining : nat)
    (payload : list Byte.byte) (ack_timeout : float) (l : L)
    : DeliveryOutcome * L * list (list Byte.byte) :=
  match attempts_remaining with
  | O => (Exhausted, l, [])
  | S k =>
      match transmit_await payload ack_timeout l with
      | (Some r, l') => (Acknowledged r, l', [payload])
      | (None, l') =>
          let '(o, l'', frames) := attempts k payload ack_timeout l' in
          (o, l'', payload :: frames)
      end
  end.

(** Modelled from the spec: [deliver(payload, max_retries, ack_timeout)]
    starts with [attempts_remaining = max_retries + 1]. *)
Definition deliver {L : Type} `{Link L} (payload : list Byte.byte)
    (max_retries : nat) (ack_timeout : float) (l : L)
    : DeliveryOutcome * L * list (list Byte.byte) :=
  attempts (S max_retries) payload ack_timeout l.

(** The board made of a sensor with state [S], a link with state [L] and
    a radio object [rfm] whose [send_with_ack] is [deliver] with the
    retry count and the timeout held in [rfm]'s attributes.  [on_air]
    collects every frame transmitted; [rfm_rssi] is what the [rssi]
    property returns. *)
Record Rig (S L : Type) : Type := {
  sensor : S;
  link : L;
  rfm_rssi : float;
  on_air : list (list Byte.byte)
}.
Arguments sensor {S L}.
Arguments link {S L}.
Arguments rfm_rssi {S L}.
Arguments on_air {S L}.

(** Modelled from the spec: the program's radio calls as the design
    document describes them, [send_with_ack] being [deliver] and the
    signal strength of an acknowledgment being kept for [rssi]. *)
Definition rig_board {S L : Type} `{Link L}
    (read : S -> (float * float * float) * S) (rfm : Radio)
    : Board (Rig S L) :=
  {| raw_values w :=
       let '(r, s') := read (sensor w) in
       (r, {| sensor := s'; link := link w; rfm_rssi := rfm_rssi w;
              on_air := on_air w |});
     send_with_ack data w :=
       let '(o, l', frames) :=
         deliver data (Z.to_nat (ack_retries rfm)) (ack_wait rfm) (link w) in
       match o with
       | Acknowledged r =>
           (true, {| sensor := sensor w; link := l'; rfm_rssi := r;
                     on_air := (on_air w ++ frames)%list |})
       | Exhausted =>
           (false, {| sensor := sensor w; link := l'; rfm_rssi := rfm_rssi w;
                      on_air := (on_air w ++ frames)%list |})
       end;
     rssi w := (rfm_rssi w, w) |}.

End Delivery.

(** ** test_tobias.py: the file logger *)

Module Logger.
Import PyFmt.

Definition MAX_LOG_TYPE_LEN : Z := 7.

Definition newline : string := String (ascii_of_nat 10) EmptyString.

(** A logger object; [file] lists what has been written through the
    open handle [self.file] and through the one of [__init__], oldest
    first. *)
Record t : Type := {
  log_file_number : Z;
  log_file_path : string;
  file : list string
}.

(** [Logger()] when [os.listdir("logs_files")] returns
    [logs_files_list]. *)
Definition init (logs_files_list : list string) : t :=
  let log_file_number := Z.of_nat (List.length logs_files_list) in
  {| log_file_number := log_file_number;
     log_file_path :=
       "logs_files/log_" ++ PyStr.of_int log_file_number ++ ".txt";
     file := ["=== LOGS STARTED (v0.1) ===" ++ newline] |}.

(** The integers that [_get_time_HH_MM_SS_mmm] derives from the clock. *)
Definition hours (total_ms : Z) : Z := total_ms / 1000 / 3600.
Definition minutes (total_ms : Z) : Z := (total_ms / 1000) mod 3600 / 60.
Definition seconds (total_ms : Z) : Z := (total_ms / 1000) mod 60.
Definition milliseconds (total_ms : Z) : Z := total_ms mod 1000.

(** [self._get_time_HH_MM_SS_mmm(bias_ms)] when [time.ticks_ms()] returns
    [ticks_ms].  Python's [//] and [%] round towards minus infinity, as
    [Z.div] and [Z.modulo] do for a positive divisor. *)
Definition _get_time_HH_MM_SS_mmm (ticks_ms bias_ms : Z) : string :=
  let current_ms := ticks_ms + bias_ms in
  let total_ms := current_ms in
  zfill_d 2 (hours total_ms) ++ ":" ++ zfill_d 2 (minutes total_ms) ++ ":"
  ++ zfill_d 2 (seconds total_ms) ++ "." ++ zfill_d 3 (milliseconds total_ms).

(** The text of [final_string] in [_add_line]. *)
Definition final_string (ticks_ms : Z) (line_type details : string)
    (time_bias : Z) : string :=
  let actual_time := _get_time_HH_MM_SS_mmm ticks_ms time_bias in
  let final_string := "[" ++ actual_time ++ "]  " in
  let type_string := "[" ++ PyStr.strip (PyStr.upper line_type) ++ "]" in
  let type_string :=
    type_string
    ++ PyStr.mul_space (MAX_LOG_TYPE_LEN - PyStr.len type_string + 4) in
  let final_string := final_string ++ type_string in
  final_string ++ PyStr.strip details.

(** [self._add_line(line_type, details, time_bias)] when the clock reads
    [ticks_ms]. *)
Definition _add_line (self : t) (ticks_ms : Z) (line_type details : string)
    (time_bias : Z) : t :=
  {| log_file_number := log_file_number self;
     log_file_path := log_file_path self;
     file := (file self
              ++ [(final_string ticks_ms line_type details time_bias
                   ++ newline)%string])%list |}.

(** [self.force_saving()]: the handle is closed and opened again for
    appending, which leaves what was written as it is. *)
Definition force_saving (self : t) : t := self.

(** [self.add_info_line(text)] and [self.add_error_line(text)] for a
    text that is already a string. *)
Definition add_info_line (self : t) (ticks_ms : Z) (text : string) : t :=
  _add_line self ticks_ms "INFO" text 0.
Definition add_error_line (self : t) (ticks_ms : Z) (text : string) : t :=
  _add_line self ticks_ms "ERROR" text 0.

End Logger.

(** ** Scripted peripherals, to run the program on *)

Module Script.
Import Main Delivery.

(** A world whose sensor answers with the next entry of [readings] and
    whose radio answers with the next entry of [answers]: [Some x] is an
    acknowledgment received with signal strength [x], [None] a delivery
    given up. *)
Record World : Type := {
  readings : list (float * float * float);
  answers : list (option float);
  radio_rssi : float
}.

Definition board : Board World :=
  {| raw_values w :=
       match readings w with
       | [] => ((0%float, 0%float, 0%float), w)
       | r :: rest =>
           (r, {| readings := rest; answers := answers w;
                  radio_rssi := radio_rssi w |})
       end;
     send_with_ack data w :=
       match answers w with
       | [] => (false, w)
       | Some x :: rest =>
           (true, {| readings := readings w; answers := rest;
                     radio_rssi := x |})
       | None :: rest =>
           (false, {| readings := readings w; answers := rest;
                      radio_rssi := radio_rssi w |})
       end;
     rssi w := (radio_rssi w, w) |}.

(** Three iterations' worth of sensor readings (four accesses each) and
    radio answers: acknowledged, lost, acknowledged. *)
Definition start : World :=
  {| readings :=
       [(1, 1, 1); (23.5, 2, 2); (3, 1013.25, 3); (4, 4, 45.0);
        (1, 1, 1); (23.75, 2, 2); (3, 1013.5, 3); (4, 4, 44.5);
        (1, 1, 1); (24.0, 2, 2); (3, 1014.0, 3); (4, 4, 44.0)]%float;
     answers := [Some (-42.5)%float; None; Some (-50.0)%float];
     radio_rssi := 0%float |}.

(** The messages handed to the radio, as text. *)
Definition messages (tr : list event) : list string :=
  List.map string_of_list_byte (sent_payloads tr).

(** A link that answers each try with the next entry of a list and stays
    silent afterwards. *)
Definition scripted_link : Link (list (option float)) :=
  {| transmit_await payload ack_timeout l :=
       match l with
       | [] => (None, [])
       | a :: rest => (a, rest)
       end |}.

End Script.

(** ** Reading numerals back *)

Module PyParse.

(** [int(s)] for a decimal numeral with an optional minus sign; leading
    zeros are accepted, as Python does.  [None] where [int] raises
    (white space, a plus sign and underscores, which Python also accepts,
    are left out). *)
Definition int_of_str (s : string) : option Z :=
  option_map Z.of_int (NilZero.int_of_string s).

Fixpoint filter (p : ascii -> bool) (s : string) : string :=
  match s with
  | EmptyString => EmptyString
  | String c r => if p c then String c (filter p r) else filter p r
  end.

(** The digits of a text, in order. *)
Definition digits_only (s : string) : string := filter PyStr.is_digit s.

Fixpoint count (p : ascii -> bool) (s : string) : nat :=
  match s with
  | EmptyString => O
  | String c r => ((if p c then 1 else 0) + count p r)%nat
  end.

Definition is_newline (c : ascii) : bool := Ascii.eqb c (ascii_of_nat 10).

End PyParse.

(** ** Reading a trace of the loop *)

Module Trace.
Import Main.

(** The lines printed, in order. *)
Fixpoint printed (tr : list event) : list string :=
  match tr with
  | [] => []
  | Print l :: tr' => l :: printed tr'
  | _ :: tr' => printed tr'
  end.

(** How many times the LED was toggled. *)
Fixpoint toggles (tr : list event) : nat :=
  match tr with
  | [] => O
  | LedToggle :: tr' => S (toggles tr')
  | _ :: tr' => toggles tr'
  end.

(** The payloads of messages numbered from [c] on, [rests] being what
    follows the counter and its two spaces in each. *)
Fixpoint numbered (c : Z) (rests : list string) : list (list Byte.byte) :=
  match rests with
  | [] => []
  | r :: rs =>
      PyStr.to_bytes (" " ++ PyFmt.pct_d c ++ "  " ++ r) :: numbered (c + 1) rs
  end.

(** What is printed for messages numbered from [c] on when none is
    acknowledged: for each, the line with the message, then the line that
    reports the acknowledgment missing. *)
Fixpoint missing_report (c : Z) (rests : list string) : list string :=
  match rests with
  | [] => []
  | r :: rs =>
      ("Send: " ++ " " ++ PyFmt.pct_d c ++ "  " ++ r)
      :: "   +-> ACK missing" :: missing_report (c + 1) rs
  end.

(** A board whose radio never gets an acknowledgment; the sensor answers
    with the next entry of a list. *)
Definition silent_board : Board (list (float * float * float)) :=
  {| raw_values w :=
       match w with
       | [] => ((0%float, 0%float, 0%float), [])
       | r :: rest => (r, rest)
       end;
     send_with_ack data w := (false, w);
     rssi w := (0%float, w) |}.

End Trace.

(** ** Sequences of calls on a logger *)

Module LoggerCalls.
Import Logger.

(** A call of one of the methods that write, with what the clock reads
    when it is made. *)
Inductive call : Type :=
| AddLine (ticks_ms : Z) (line_type details : string) (time_bias : Z)
| AddInfoLine (ticks_ms : Z) (text : string)
| AddErrorLine (ticks_ms : Z) (text : string)
| ForceSaving.

Definition apply (self : t) (c : call) : t :=
  match c with
  | AddLine ticks_ms line_type details time_bias =>
      _add_line self ticks_ms line_type details time_bias
  | AddInfoLine ticks_ms text => add_info_line self ticks_ms text
  | AddErrorLine ticks_ms text => add_error_line self ticks_ms text
  | ForceSaving => force_saving self
  end.

Definition apply_all (self : t) (cs : list call) : t :=
  List.fold_left apply cs self.

Definition writes (c : call) : bool :=
  match c with
  | ForceSaving => false
  | _ => true
  end.

(** The example at the end of the file: a logger, [n] information lines
    [some text and i] for [i] from 0, then [force_saving]; [clock i] is
    what the clock reads at the [i]-th line.  The file has [n = 100]. *)
Definition example_calls (clock : nat -> Z) (n : nat) : list call :=
  (List.map (fun i => AddInfoLine (clock i)
                        ("some text and " ++ PyStr.of_int (Z.of_nat i)))
            (seq 0 n)
   ++ [ForceSaving])%list.

Definition example (logs_files_list : list string) (clock : nat -> Z) : t :=
  apply_all (init logs_files_list) (example_calls clock 100).

End LoggerCalls.

(** ** What upper case and stripped mean *)

Module LineSpec.







End LineSpec.

(* ================================================================== *)
(** * Properties *)
(* ================================================================== *)

(** ** Strings *)

Module PyStrFacts.
Import PyStr.

Lemma length_app (a b : string) :
  String.length (a ++ b) = (String.length a + String.length b)%nat.
Proof. induction a as [|c a IH]; simpl; [reflexivity | now rewrite IH]. Qed.

Lemma app_assoc (a b c : string) : (a ++ b) ++ c = a ++ (b ++ c).
Proof. induction a as [|x a IH]; simpl; [reflexivity | now rewrite IH]. Qed.

Lemma app_empty_r (a : string) : a ++ "" = a.
Proof. induction a as [|x a IH]; simpl; [reflexivity | now rewrite IH]. Qed.

Lemma length_replicate (n : nat) (c : ascii) :
  String.length (replicate n c) = n.
Proof. induction n as [|n IH]; simpl; [reflexivity | now rewrite IH]. Qed.

Lemma forallb_app (p : ascii -> bool) (a b : string) :
  forallb p (a ++ b) = forallb p a && forallb p b.
Proof.
  induction a as [|c a IH]; simpl; [reflexivity |].
  now rewrite IH, andb_assoc.
Qed.

Lemma forallb_impl (p q : ascii -> bool) (s : string) :
  (forall c, p c = true -> q c = true) ->
  forallb p s = true -> forallb q s = true.
Proof.
  intros Hpq. induction s as [|c s IH]; simpl; [reflexivity |].
  intros H. apply andb_true_iff in H. destruct H as [Hc Hs].
  now rewrite (Hpq c Hc), IH.
Qed.

Lemma forallb_replicate (p : ascii -> bool) (n : nat) (c : ascii) :
  p c = true -> forallb p (replicate n c) = true.
Proof. intros Hc. induction n as [|n IH]; simpl; [reflexivity | now rewrite Hc]. Qed.

Lemma rjust_long (width : nat) (c : ascii) (s : string) :
  (width <= String.length s)%nat -> rjust width c s = s.
Proof.
  intros H. unfold rjust.
  replace (width - String.length s)%nat with O by lia. reflexivity.
Qed.

Lemma length_rjust (width : nat) (c : ascii) (s : string) :
  String.length (rjust width c s) = Nat.max width (String.length s).
Proof. unfold rjust. rewrite length_app, length_replicate. lia. Qed.

Lemma forallb_rjust (p : ascii -> bool) (width : nat) (c : ascii) (s : string) :
  p c = true -> forallb p s = true -> forallb p (rjust width c s) = true.
Proof.
  intros Hc Hs. unfold rjust.
  now rewrite forallb_app, forallb_replicate, Hs.
Qed.

(** *** Substrings of a concatenation *)

Lemma substring_zero_zero (s : string) : substring 0 0 s = "".
Proof. destruct s; reflexivity. Qed.

Lemma substring_prefix (a b : string) :
  substring 0 (String.length a) (a ++ b) = a.
Proof.
  induction a as [|c a IH]; simpl.
  - apply substring_zero_zero.
  - now rewrite IH.
Qed.

Lemma substring_skip (a b : string) (m : nat) :
  substring (String.length a) m (a ++ b) = substring 0 m b.
Proof. induction a as [|c a IH]; simpl; [reflexivity | exact IH]. Qed.

Lemma substring_whole (s : string) : substring 0 (String.length s) s = s.
Proof. induction s as [|c s IH]; simpl; [reflexivity | now rewrite IH]. Qed.

Lemma length_substring (s : string) : forall n m : nat,
  (n + m <= String.length s)%nat -> String.length (substring n m s) = m.
Proof.
  induction s as [|c s IH]; intros n m H; simpl in H.
  - assert (n = O) by lia. assert (m = O) by lia. subst. reflexivity.
  - destruct n as [|n]; simpl.
    + destruct m as [|m]; simpl; [reflexivity |].
      f_equal. apply IH. simpl. lia.
    + apply IH. lia.
Qed.

Lemma forallb_substring (p : ascii -> bool) (s : string) : forall n m : nat,
  forallb p s = true -> forallb p (substring n m s) = true.
Proof.
  induction s as [|c s IH]; intros n m H; simpl in *.
  - destruct n, m; reflexivity.
  - apply andb_true_iff in H. destruct H as [Hc Hs].
    destruct n as [|n]; [destruct m as [|m] |]; simpl.
    + reflexivity.
    + now rewrite Hc, IH.
    + now apply IH.
Qed.

(** Cutting a string in two gives it back. *)
Lemma substring_split (s : string) : forall k : nat,
  (k <= String.length s)%nat ->
  substring 0 k s ++ substring k (String.length s - k) s = s.
Proof.
  induction s as [|c s IH]; intros k H; simpl in H.
  - assert (k = O) by lia. subst. reflexivity.
  - destruct k as [|k]; simpl.
    + now rewrite substring_whole.
    + f_equal. apply IH. lia.
Qed.

(** *** Decimal digits *)

Lemma digits_of_uint (d : Decimal.uint) :
  forallb is_digit (NilEmpty.string_of_uint d) = true.
Proof. induction d; simpl; auto. Qed.

Lemma digits_of_nilzero (d : Decimal.uint) :
  forallb is_digit (NilZero.string_of_uint d) = true.
Proof. destruct d; try reflexivity; apply (digits_of_uint (_ d)). Qed.

Lemma nilzero_nonempty (d : Decimal.uint) :
  (1 <= String.length (NilZero.string_of_uint d))%nat.
Proof. destruct d; simpl; lia. Qed.

Lemma of_int_nonneg (n : Z) :
  0 <= n -> exists d, of_int n = NilZero.string_of_uint d.
Proof.
  intros H. unfold of_int, Z.to_int, NilZero.string_of_int.
  destruct n as [|p|p]; [| | lia]; eexists; reflexivity.
Qed.

Lemma of_int_digits (n : Z) :
  0 <= n -> forallb is_digit (of_int n) = true.
Proof.
  intros H. destruct (of_int_nonneg n H) as [d ->]. apply digits_of_nilzero.
Qed.

Lemma of_int_nonempty (n : Z) :
  0 <= n -> (1 <= String.length (of_int n))%nat.
Proof.
  intros H. destruct (of_int_nonneg n H) as [d ->]. apply nilzero_nonempty.
Qed.

Lemma of_int_neg (n : Z) :
  n < 0 -> of_int n = String "-" (of_int (- n)).
Proof.
  intros H. destruct n as [|p|p]; [lia | lia |]. reflexivity.
Qed.

End PyStrFacts.

(** ** Number formatting *)

Module PyFmtFacts.
Import PyStr PyStrFacts PyFmt.

Lemma round_half_even_nonneg (num den : Z) :
  0 <= num -> 0 < den -> 0 <= round_half_even num den.
Proof.
  intros Hn Hd. unfold round_half_even.
  assert (0 <= num / den) by (apply Z.div_pos; lia).
  destruct (2 * (num mod den) ?= den); [destruct (Z.even _) | |]; lia.
Qed.

Lemma scaled_nonneg (prec : nat) (m : positive) (e : Z) :
  0 <= scaled prec m e.
Proof.
  unfold scaled.
  assert (0 < 10 ^ Z.of_nat prec) by (apply Z.pow_pos_nonneg; lia).
  destruct (0 <=? e) eqn:He.
  - apply Z.leb_le in He.
    assert (0 < 2 ^ e) by (apply Z.pow_pos_nonneg; lia). nia.
  - apply Z.leb_gt in He. apply round_half_even_nonneg.
    + nia.
    + apply Z.pow_pos_nonneg; lia.
Qed.

(** *** The shape of a fixed-point numeral *)

Lemma unsigned_shape_intro (prec : nat) (a b : string) :
  (1 <= String.length a)%nat -> String.length b = prec ->
  forallb is_digit a = true -> forallb is_digit b = true ->
  unsigned_shape prec (a ++ "." ++ b) = true.
Proof.
  intros Ha Hb Da Db. subst prec. unfold unsigned_shape.
  rewrite length_app. simpl String.length.
  replace (String.length a + S (String.length b) - S (String.length b))%nat
    with (String.length a) by lia.
  rewrite substring_prefix, Da.
  rewrite substring_skip. simpl substring at 1.
  rewrite substring_zero_zero. simpl String.eqb.
  replace (a ++ "." ++ b) with ((a ++ ".") ++ b) by apply app_assoc.
  replace (S (String.length a)) with (String.length (a ++ "."))
    by (rewrite length_app; simpl; lia).
  rewrite substring_skip, substring_whole, Db.
  rewrite !andb_true_r. apply Nat.leb_le. lia.
Qed.

Lemma unsigned_shape_length (prec : nat) (s : string) :
  unsigned_shape prec s = true -> (prec + 2 <= String.length s)%nat.
Proof.
  unfold unsigned_shape. intros H.
  repeat (apply andb_true_iff in H; destruct H as [H _]).
  apply Nat.leb_le in H. lia.
Qed.

Lemma fixed_shape_minus (prec : nat) (s : string) :
  fixed_shape prec (String "-" s) = unsigned_shape prec s.
Proof. reflexivity. Qed.

Lemma fixed_shape_digit (prec : nat) (c : ascii) (s : string) :
  is_digit c = true ->
  fixed_shape prec (String c s) = unsigned_shape prec (String c s).
Proof.
  intros H. destruct c as [[] [] [] [] [] [] [] []];
    try reflexivity; discriminate H.
Qed.

Lemma fixed_shape_length (prec : nat) (s : string) :
  fixed_shape prec s = true -> (prec + 2 <= String.length s)%nat.
Proof.
  intros H.
  assert (G : unsigned_shape prec s = true
              \/ exists r, s = String "-" r /\ unsigned_shape prec r = true).
  { destruct s as [|c r]; [now left |].
    destruct (Ascii.eqb_spec c "-") as [-> | Hc].
    - right. now exists r.
    - left. revert H. unfold fixed_shape.
      destruct c as [[] [] [] [] [] [] [] []]; try (intros H; exact H).
      now contradiction Hc. }
  destruct G as [G | [r [-> G]]]; apply unsigned_shape_length in G;
    simpl; lia.
Qed.

(** [point] yields an unsigned numeral with [prec] decimals. *)
Lemma point_parts (prec : nat) (n : Z) :
  0 <= n ->
  exists a b,
    point (S prec) n = a ++ "." ++ b
    /\ (1 <= String.length a)%nat /\ String.length b = S prec
    /\ forallb is_digit a = true /\ forallb is_digit b = true.
Proof.
  intros Hn. unfold point.
  set (ds := rjust (S (S prec)) "0" (of_int n)).
  assert (Hlen : (S (S prec) <= String.length ds)%nat)
    by (unfold ds; rewrite length_rjust; lia).
  assert (Hd : forallb is_digit ds = true)
    by (apply forallb_rjust; [reflexivity | now apply of_int_digits]).
  exists (substring 0 (String.length ds - S prec) ds),
         (substring (String.length ds - S prec) (S prec) ds).
  repeat split.
  - rewrite length_substring; lia.
  - rewrite length_substring; lia.
  - now apply forallb_substring.
  - now apply forallb_substring.
Qed.

Lemma point_shape (prec : nat) (n : Z) :
  0 <= n -> unsigned_shape (S prec) (point (S prec) n) = true.
Proof.
  intros Hn. destruct (point_parts prec n Hn) as (a & b & -> & ? & ? & ? & ?).
  now apply unsigned_shape_intro.
Qed.

Lemma point_head (prec : nat) (n : Z) :
  0 <= n ->
  exists c r, point (S prec) n = String c r /\ is_digit c = true.
Proof.
  intros Hn. destruct (point_parts prec n Hn) as (a & b & -> & Ha & _ & Da & _).
  destruct a as [|c a]; [simpl in Ha; lia |].
  simpl in Da. apply andb_true_iff in Da. destruct Da as [Dc _].
  now exists c, (a ++ "." ++ b).
Qed.

Lemma signed_point_shape (prec : nat) (s : bool) (n : Z) :
  0 <= n -> fixed_shape (S prec) (sign s ++ point (S prec) n) = true.
Proof.
  intros Hn. destruct s.
  - change (unsigned_shape (S prec) (point (S prec) n) = true).
    now apply point_shape.
  - change (fixed_shape (S prec) (point (S prec) n) = true).
    destruct (point_head prec n Hn) as (c & r & E & Dc).
    rewrite E, fixed_shape_digit by assumption.
    rewrite <- E. now apply point_shape.
Qed.

(** A finite float prints as a fixed-point numeral. *)
Lemma fixed_finite_shape (prec : nat) (x : float) :
  is_finite x = true -> fixed_shape (S prec) (fixed (S prec) x) = true.
Proof.
  unfold is_finite, fixed. destruct (Prim2SF x) as [s | s | | s m e];
    intros H; try discriminate H.
  - now apply signed_point_shape.
  - apply signed_point_shape, scaled_nonneg.
Qed.

Lemma digit_numeral (c : ascii) : is_digit c = true -> numeral_char c = true.
Proof. intros H. unfold numeral_char. now rewrite H. Qed.

Lemma numeral_payload (c : ascii) :
  numeral_char c = true -> payload_char c = true.
Proof. intros H. unfold payload_char. now rewrite H. Qed.

Lemma fixed_finite_chars (prec : nat) (x : float) :
  is_finite x = true -> forallb numeral_char (fixed (S prec) x) = true.
Proof.
  assert (P : forall (s : bool) (n : Z), 0 <= n ->
            forallb numeral_char (sign s ++ point (S prec) n) = true).
  { intros s n Hn.
    destruct (point_parts prec n Hn) as (a & b & -> & _ & _ & Da & Db).
    rewrite !forallb_app.
    rewrite (forallb_impl _ _ a digit_numeral Da).
    rewrite (forallb_impl _ _ b digit_numeral Db).
    now destruct s. }
  unfold is_finite, fixed. destruct (Prim2SF x) as [s | s | | s m e];
    intros H; try discriminate H.
  - now apply P.
  - apply P, scaled_nonneg.
Qed.

(** The field widths of the program never add a space. *)
Lemma pct_f_exact (width prec : nat) (v : pynum) :
  is_finite (to_float v) = true -> (width <= prec + 3)%nat ->
  pct_f width (S prec) v = fixed (S prec) (to_float v).
Proof.
  intros Hf Hw. unfold pct_f. apply rjust_long.
  pose proof (fixed_shape_length _ _ (fixed_finite_shape prec _ Hf)). lia.
Qed.

(** *** Integers *)

Lemma int_shape_of_int (n : Z) : int_shape (pct_d n) = true.
Proof.
  unfold pct_d. destruct (Z.lt_ge_cases n 0) as [Hn | Hn].
  - rewrite (of_int_neg n Hn). simpl.
    assert (H0 : 0 <= - n) by lia.
    pose proof (of_int_nonempty _ H0). rewrite (of_int_digits _ H0).
    destruct (of_int (- n)); [simpl in *; lia | reflexivity].
  - pose proof (of_int_nonempty _ Hn). pose proof (of_int_digits _ Hn) as D.
    destruct (of_int n) as [|c r] eqn:E; [simpl in *; lia |].
    simpl in D. apply andb_true_iff in D. destruct D as [Dc Dr].
    unfold int_shape.
    destruct c as [[] [] [] [] [] [] [] []]; try discriminate Dc;
      simpl; now rewrite Dr.
Qed.

Lemma pct_d_chars (n : Z) : forallb numeral_char (pct_d n) = true.
Proof.
  unfold pct_d. destruct (Z.lt_ge_cases n 0) as [Hn | Hn].
  - rewrite (of_int_neg n Hn). simpl.
    apply (forallb_impl _ _ _ digit_numeral), of_int_digits. lia.
  - now apply (forallb_impl _ _ _ digit_numeral), of_int_digits.
Qed.

Lemma zfill_nonneg (width : nat) (n : Z) :
  0 <= n -> zfill_d width n = rjust width "0" (of_int n).
Proof. intros H. unfold zfill_d. now destruct (Z.ltb_spec n 0); [lia |]. Qed.

Lemma zfill_digits (width : nat) (n : Z) :
  0 <= n -> forallb is_digit (zfill_d width n) = true.
Proof.
  intros H. rewrite zfill_nonneg by assumption.
  apply forallb_rjust; [reflexivity | now apply of_int_digits].
Qed.

Lemma zfill_min_length (width : nat) (n : Z) :
  0 <= n -> (width <= String.length (zfill_d width n))%nat.
Proof. intros H. rewrite zfill_nonneg, length_rjust by assumption. lia. Qed.

End PyFmtFacts.

(** ** The emitter loop *)

Module MainFacts.
Import PyStr PyStrFacts PyFmt PyFmtFacts Main.

(** What the format string of [msg] means. *)
Lemma msg_eq (c : Z) (r : option float) (t p h a : float) :
  msg c r t p h a =
  Some (" " ++ pct_d c ++ "  " ++ pct_f 3 1 (rssi_or_zero r) ++ "  "
        ++ pct_f 2 2 (PyFloat t) ++ "  " ++ pct_f 4 2 (PyFloat p) ++ "  "
        ++ pct_f 2 2 (PyFloat h) ++ "  " ++ pct_f 3 6 (PyFloat a)).
Proof.
  rewrite <- (app_empty_r (pct_f 3 6 (PyFloat a))) at 1. reflexivity.
Qed.

Lemma ack_line_eq (y : float) :
  format ACK_FORMAT [PyFloat y] =
  Some ("   +-> ACK received | RSSI (ACK): " ++ pct_f 3 1 (PyFloat y) ++ " dBm").
Proof. reflexivity. Qed.

(** The loop body never raises, and this is what it does. *)
Lemma loop_body_eq {W : Type} `{Board W} (v : Vars) (w : W) :
  exists text w' line,
    msg (counter v) (last_rssi v)
      (fst (fst (fst (sample raw_values w))))
      (snd (fst (fst (sample raw_values w))))
      (snd (fst (sample raw_values w)))
      (altitude (snd (fst (fst (sample raw_values w))))) = Some text
    /\ loop_body v w =
       Some ({| counter := counter v + 1;
                last_rssi :=
                  match observe (to_bytes text) (snd (sample raw_values w)) with
                  | Acknowledged x => Some x
                  | Exhausted => last_rssi v
                  end |},
             w',
             [LedToggle; Print ("Send: " ++ text); SendWithAck (to_bytes text);
              Print line; Sleep 0.1%float]).
Proof.
  unfold loop_body, observe.
  destruct (sample raw_values w) as [[[t p] h] w1]. cbn [fst snd].
  destruct (msg (counter v) (last_rssi v) t p h (altitude p))
    as [text|] eqn:E; [| rewrite msg_eq in E; discriminate E].
  exists text.
  destruct (send_with_ack (to_bytes text) w1) as [[|] w2].
  - destruct (rssi w2) as [x w3]. destruct (rssi w3) as [y w4].
    rewrite ack_line_eq. cbn [fst].
    do 2 eexists. split; reflexivity.
  - do 2 eexists. split; reflexivity.
Qed.

(** C1 (as the program has it).  For finite values the message is one
    line: a space, then six fields separated by exactly two spaces: the
    counter as an integer, the signal strength with one decimal, the
    temperature, the pressure and the humidity with two decimals each,
    the altitude with six decimals.  No field contains a space. *)
Theorem msg_layout :
  forall (c : Z) (r : option float) (t p h a : float),
    is_finite (to_float (rssi_or_zero r)) = true ->
    is_finite t = true -> is_finite p = true ->
    is_finite h = true -> is_finite a = true ->
    exists text,
      msg c r t p h a = Some text
      /\ text = " " ++ pct_d c ++ "  " ++ fixed 1 (to_float (rssi_or_zero r))
               ++ "  " ++ fixed 2 t ++ "  " ++ fixed 2 p
               ++ "  " ++ fixed 2 h ++ "  " ++ fixed 6 a
      /\ int_shape (pct_d c) = true
      /\ fixed_shape 1 (fixed 1 (to_float (rssi_or_zero r))) = true
      /\ fixed_shape 2 (fixed 2 t) = true
      /\ fixed_shape 2 (fixed 2 p) = true
      /\ fixed_shape 2 (fixed 2 h) = true
      /\ fixed_shape 6 (fixed 6 a) = true
      /\ forallb payload_char text = true.
Proof.
  intros c r t p h a Hr Ht Hp Hh Ha.
  eexists. split; [apply msg_eq |].
  rewrite (pct_f_exact 3 0 _ Hr) by lia.
  rewrite (pct_f_exact 2 1 (PyFloat t) Ht) by lia.
  rewrite (pct_f_exact 4 1 (PyFloat p) Hp) by lia.
  rewrite (pct_f_exact 2 1 (PyFloat h) Hh) by lia.
  rewrite (pct_f_exact 3 5 (PyFloat a) Ha) by lia.
  cbn [to_float].
  split; [reflexivity |].
  split; [apply int_shape_of_int |].
  do 5 (split; [now apply fixed_finite_shape |]).
  pose proof (forallb_impl _ _ _ numeral_payload (pct_d_chars c)) as Dc.
  pose proof (forallb_impl _ _ _ numeral_payload
                (fixed_finite_chars 0 _ Hr)) as Dr.
  pose proof (forallb_impl _ _ _ numeral_payload
                (fixed_finite_chars 1 _ Ht)) as Dt.
  pose proof (forallb_impl _ _ _ numeral_payload
                (fixed_finite_chars 1 _ Hp)) as Dp.
  pose proof (forallb_impl _ _ _ numeral_payload
                (fixed_finite_chars 1 _ Hh)) as Dh.
  pose proof (forallb_impl _ _ _ numeral_payload
                (fixed_finite_chars 5 _ Ha)) as Da.
  rewrite !forallb_app, Dc, Dr, Dt, Dp, Dh, Da. reflexivity.
Qed.

(** The message of the design document's example, as the program builds
    it: the temperature has two decimals. *)
Lemma msg_layout_example :
  is_finite (to_float (rssi_or_zero (Some (-42.3)%float))) = true
  /\ is_finite 23.5%float = true /\ is_finite 1013.25%float = true
  /\ is_finite 45.0%float = true /\ is_finite (-9.375)%float = true
  /\ exists text,
      msg 5 (Some (-42.3)%float) 23.5%float 1013.25%float
        45.0%float (-9.375)%float = Some text
      /\ text = " 5  -42.3  23.50  1013.25  45.00  -9.375000"
      /\ forallb payload_char text = true.
Proof.
  do 5 (split; [vm_compute; reflexivity |]).
  destruct (msg_layout 5 (Some (-42.3)%float) 23.5%float 1013.25%float
              45.0%float (-9.375)%float)
    as (text & E & M & _ & _ & _ & _ & _ & _ & C);
    try (vm_compute; reflexivity).
  exists text. split; [exact E |]. split; [| exact C].
  rewrite M. vm_compute. reflexivity.
Defined.

(** C1 as the design document states it fails on its own example: the
    program does not build the text with [23.5]. *)
Lemma msg_not_as_documented :
  msg 5 (Some (-42.3)%float) 23.5%float 1013.25%float
    45.0%float (-9.375)%float
  <> Some " 5  -42.3  23.5  1013.25  45.00  -9.375000".
Proof. vm_compute. intros H. discriminate H. Qed.

(** C5. With no signal strength observed yet, the second field of the
    message is the text [0.0]: the integer 0 printed by [%3.1f]. *)
Theorem absent_rssi_prints_zero :
  forall (c : Z) (t p h a : float),
    pct_f 3 1 (rssi_or_zero None) = "0.0"
    /\ int_shape (pct_d c) = true
    /\ msg c None t p h a =
       Some (" " ++ pct_d c ++ "  " ++ "0.0" ++ "  "
             ++ pct_f 2 2 (PyFloat t) ++ "  " ++ pct_f 4 2 (PyFloat p)
             ++ "  " ++ pct_f 2 2 (PyFloat h) ++ "  "
             ++ pct_f 3 6 (PyFloat a)).
Proof.
  intros c t p h a.
  assert (Z0 : pct_f 3 1 (rssi_or_zero None) = "0.0")
    by (vm_compute; reflexivity).
  split; [exact Z0 |]. split; [apply int_shape_of_int |].
  rewrite msg_eq, Z0. reflexivity.
Qed.

Lemma run_counter {W : Type} `{Board W} (n : nat) : forall (v : Vars) (w : W),
  exists v' w' tr,
    run n v w = Some (v', w', tr) /\ counter v' = counter v + Z.of_nat n.
Proof.
  induction n as [|n IH]; intros v w.
  - exists v, w, []. split; [reflexivity | simpl; lia].
  - destruct (loop_body_eq v w) as (text & w1 & line & _ & E).
    cbn [run]. rewrite E.
    match type of E with _ = Some (?v1, _, _) =>
      destruct (IH v1 w1) as (v2 & w2 & tr & E2 & C2) end.
    rewrite E2. do 3 eexists. split; [reflexivity |].
    rewrite C2. cbn [counter]. lia.
Qed.

(** C2. In every iteration, [last_rssi] afterwards is the signal strength
    of the acknowledgment when the delivery of that iteration's message
    was acknowledged, and is what it was before when it was not: it is
    written exactly when an acknowledgment came, and a failure never
    clears it. *)
Theorem last_rssi_tracks_outcome :
  forall (W : Type) (B : Board W) (v : Vars) (w : W),
  exists text v' w' tr,
    loop_body v w = Some (v', w', tr)
    /\ sent_payloads tr = [to_bytes text]
    /\ last_rssi v' =
       match observe (to_bytes text) (snd (sample raw_values w)) with
       | Acknowledged x => Some x
       | Exhausted => last_rssi v
       end.
Proof.
  intros W B v w. destruct (loop_body_eq v w) as (text & w' & line & _ & E).
  exists text. do 3 eexists. split; [exact E |]. split; reflexivity.
Qed.

(** C4. The counter starts at 1; every iteration adds exactly 1 to it,
    whatever the radio answers; after [n] iterations it is [1 + n]. *)
Theorem counter_steps_by_one :
  counter initial = 1
  /\ (forall (W : Type) (B : Board W) (v : Vars) (w : W),
        exists v' w' tr,
          loop_body v w = Some (v', w', tr) /\ counter v' = counter v + 1)
  /\ (forall (W : Type) (B : Board W) (n : nat) (w : W),
        exists v' w' tr,
          run n initial w = Some (v', w', tr)
          /\ counter v' = 1 + Z.of_nat n).
Proof.
  split; [reflexivity |]. split.
  - intros W B v w. destruct (loop_body_eq v w) as (text & w' & line & _ & E).
    do 3 eexists. split; [exact E | reflexivity].
  - intros W B n w. apply (run_counter n initial w).
Qed.

(** C7. The altitude that goes into the message is
    [(baseline - pressure) * 8.3] for the pressure sampled in that
    iteration, the baseline being 1032.0. *)
Theorem altitude_from_pressure :
  forall (W : Type) (B : Board W) (v : Vars) (w : W),
  exists text v' w' tr,
    msg (counter v) (last_rssi v)
      (fst (fst (fst (sample raw_values w))))
      (snd (fst (fst (sample raw_values w))))
      (snd (fst (sample raw_values w)))
      ((1032.0 - snd (fst (fst (sample raw_values w)))) * 8.3)%float
    = Some text
    /\ loop_body v w = Some (v', w', tr)
    /\ sent_payloads tr = [to_bytes text].
Proof.
  intros W B v w. destruct (loop_body_eq v w) as (text & w' & line & E & L).
  exists text. do 3 eexists. split; [exact E |]. split; [exact L | reflexivity].
Qed.

(** C8. The constants of the program: frequency 433.1 MHz, 2 retries,
    acknowledgment timeout 1.0 s, node id 120, destination id 100 on the
    configured radio, whatever the driver's defaults were, and a pause of
    0.1 s at the end of every iteration. *)
Theorem operational_constants :
  (forall rfm : Radio,
     frequency_mhz (configure rfm) = 433.1%float
     /\ ack_retries (configure rfm) = 2
     /\ ack_wait (configure rfm) = 1.0%float
     /\ node (configure rfm) = 120
     /\ destination (configure rfm) = 100)
  /\ (forall (W : Type) (B : Board W) (v : Vars) (w : W),
        exists v' w' tr,
          loop_body v w = Some (v', w', tr) /\ pauses tr = [0.1%float]).
Proof.
  split.
  - intros rfm. repeat split.
  - intros W B v w. destruct (loop_body_eq v w) as (text & w' & line & _ & E).
    do 3 eexists. split; [exact E | reflexivity].
Qed.

End MainFacts.

(** ** The retry loop *)

Module DeliveryFacts.
Import PyStr PyFmt Main MainFacts Delivery.

(** With [n] tries left the loop transmits the same payload at most [n]
    times, at least once when [n] is not zero, and gives up only after
    all [n]. *)
Lemma attempts_frames {L : Type} `{Link L} (n : nat) :
  forall (payload : list Byte.byte) (ack_timeout : float) (l : L),
  exists o l' frames,
    attempts n payload ack_timeout l = (o, l', frames)
    /\ (List.length frames <= n)%nat
    /\ (n = O \/ 1 <= List.length frames)%nat
    /\ Forall (eq payload) frames
    /\ (o = Exhausted -> List.length frames = n).
Proof.
  induction n as [|n IH]; intros payload ack_timeout l.
  - exists Exhausted, l, []. simpl.
    split; [reflexivity |]. split; [lia |]. split; [now left |].
    split; [constructor | reflexivity].
  - cbn [attempts].
    destruct (transmit_await payload ack_timeout l) as [[r|] l1].
    + exists (Acknowledged r), l1, [payload]. simpl.
      split; [reflexivity |]. split; [lia |]. split; [right; lia |].
      split; [now constructor | discriminate].
    + destruct (IH payload ack_timeout l1)
        as (o & l2 & frames & E & Hle & _ & Hall & Hex).
      rewrite E. exists o, l2, (payload :: frames). simpl.
      split; [reflexivity |]. split; [lia |]. split; [right; lia |].
      split; [now constructor |].
      intros Ho. now rewrite (Hex Ho).
Qed.

(** An acknowledgment ends the loop at once: the first try that is
    acknowledged is the last frame sent. *)
Lemma attempts_first_ack {L : Type} `{Link L} (n : nat)
    (payload : list Byte.byte) (ack_timeout : float) (l l1 : L) (r : float) :
  transmit_await payload ack_timeout l = (Some r, l1) ->
  attempts (S n) payload ack_timeout l = (Acknowledged r, l1, [payload]).
Proof. intros E. cbn [attempts]. now rewrite E. Qed.

(** Sampling the sensor leaves the radio alone. *)
Lemma sample_rig {S L : Type} `{Link L}
    (read : S -> (float * float * float) * S) (rfm : Radio) (w : Rig S L) :
  on_air (snd (sample (@raw_values _ (rig_board read rfm)) w)) = on_air w
  /\ link (snd (sample (@raw_values _ (rig_board read rfm)) w)) = link w
  /\ rfm_rssi (snd (sample (@raw_values _ (rig_board read rfm)) w)) = rfm_rssi w.
Proof.
  unfold sample. cbn [raw_values rig_board sensor link rfm_rssi on_air].
  destruct (read (sensor w)) as [r0 s0]. cbn [sensor link rfm_rssi on_air].
  destruct (read s0) as [r1 s1]. cbn [sensor link rfm_rssi on_air].
  destruct (read s1) as [r2 s2]. cbn [sensor link rfm_rssi on_air].
  destruct (read s2) as [r3 s3]. cbn [sensor link rfm_rssi on_air snd].
  repeat split.
Qed.

(** C3. A delivery transmits the payload it is given at least once and
    at most [max_retries + 1] times, and nothing else.  In the program,
    where the retry count is 2, an iteration puts between one and three
    frames on the air, each of them the message built with the counter
    of that iteration; the counter moves on only afterwards. *)
Theorem delivery_attempt_bounds :
  (forall (L : Type) (K : Link L) (payload : list Byte.byte)
          (max_retries : nat) (ack_timeout : float) (l : L),
     exists o l' frames,
       deliver payload max_retries ack_timeout l = (o, l', frames)
       /\ (1 <= List.length frames <= max_retries + 1)%nat
       /\ Forall (eq payload) frames)
  /\ (forall (S L : Type) (K : Link L)
             (read : S -> (float * float * float) * S) (rfm : Radio)
             (v : Vars) (w : Rig S L),
        let B := rig_board read (configure rfm) in
        exists text v' w' tr frames,
          msg (counter v) (last_rssi v)
            (fst (fst (fst (sample (@raw_values _ B) w))))
            (snd (fst (fst (sample (@raw_values _ B) w))))
            (snd (fst (sample (@raw_values _ B) w)))
            (altitude (snd (fst (fst (sample (@raw_values _ B) w)))))
          = Some text
          /\ @loop_body _ B v w = Some (v', w', tr)
          /\ on_air w' = (on_air w ++ frames)%list
          /\ (1 <= List.length frames <= 3)%nat
          /\ Forall (eq (to_bytes text)) frames
          /\ counter v' = counter v + 1).
Proof.
  split.
  - intros L K payload max_retries ack_timeout l. unfold deliver.
    destruct (attempts_frames (S max_retries) payload ack_timeout l)
      as (o & l' & frames & E & Hle & [Hz | Hge] & Hall & _);
      [discriminate Hz |].
    exists o, l', frames. repeat split; auto; lia.
  - intros S L K read rfm v w B.
    destruct (sample_rig read (configure rfm) w) as (Hair & Hlink & Hrssi).
    fold B in Hair, Hlink, Hrssi.
    unfold loop_body.
    destruct (sample (@raw_values _ B) w) as [[[t p] h] w1]. cbn [fst snd] in *.
    destruct (msg (counter v) (last_rssi v) t p h (altitude p))
      as [text|] eqn:E; [| rewrite msg_eq in E; discriminate E].
    exists text.
    unfold B at 1. cbn [send_with_ack rig_board].
    change (Z.to_nat (ack_retries (configure rfm))) with 2%nat.
    unfold deliver.
    destruct (attempts_frames 3 (to_bytes text) (ack_wait (configure rfm)) (link w1))
      as (o & l' & frames & Ed & Hle & [Hz | Hge] & Hall & _);
      [discriminate Hz |].
    rewrite Ed. destruct o as [x|].
    + unfold B. cbn [rssi rig_board rfm_rssi]. rewrite ack_line_eq.
      do 3 eexists. exists frames. split; [reflexivity |].
      split; [reflexivity |]. cbn [on_air counter]. rewrite Hair.
      repeat split; auto.
    + do 3 eexists. exists frames. split; [reflexivity |].
      split; [reflexivity |]. cbn [on_air counter]. rewrite Hair.
      repeat split; auto.
Qed.

End DeliveryFacts.

(** ** The logger *)

Module LoggerFacts.
Import PyStr PyStrFacts PyFmt PyFmtFacts Logger.

(** *** [strip] and [upper] *)

Lemma lstrip_split (s : string) :
  exists pre, s = pre ++ lstrip s /\ forallb is_space pre = true.
Proof.
  induction s as [|c s (pre & E & Hpre)]; [now exists "" |].
  simpl. destruct (is_space c) eqn:Hc.
  - exists (String c pre). simpl. now rewrite Hc, Hpre, <- E.
  - now exists "".
Qed.

Lemma rstrip_split (s : string) :
  exists post, s = rstrip s ++ post /\ forallb is_space post = true.
Proof.
  induction s as [|c s (post & E & Hpost)]; [now exists "" |].
  simpl. destruct (rstrip s) as [|x y] eqn:R.
  - simpl in E. subst s. destruct (is_space c) eqn:Hc.
    + exists (String c post). simpl. now rewrite Hc, Hpost.
    + now exists post.
  - exists post. simpl in *. now rewrite <- E.
Qed.

(** [strip] removes white space, and only white space, from both ends. *)
Lemma strip_split (s : string) :
  exists pre post,
    s = pre ++ strip s ++ post
    /\ forallb is_space pre = true /\ forallb is_space post = true.
Proof.
  destruct (lstrip_split s) as (pre & E & Hpre).
  destruct (rstrip_split (lstrip s)) as (post & E' & Hpost).
  exists pre, post. unfold strip. now rewrite <- E', <- E.
Qed.






Lemma length_map (f : ascii -> ascii) (s : string) :
  String.length (map f s) = String.length s.
Proof. induction s as [|c s IH]; simpl; [reflexivity | now rewrite IH]. Qed.

Lemma to_upper_not_lower (c : ascii) : is_lower (to_upper c) = false.
Proof. destruct c as [[] [] [] [] [] [] [] []]; reflexivity. Qed.

Lemma to_upper_fixes (c : ascii) : is_lower c = false -> to_upper c = c.
Proof. intros H. unfold to_upper. now rewrite H. Qed.

(** [upper] keeps the length, leaves no lower-case letter and changes
    nothing else. *)
Lemma upper_spec (s : string) :
  String.length (upper s) = String.length s
  /\ existsb is_lower (upper s) = false
  /\ (existsb is_lower s = false -> upper s = s).
Proof.
  unfold upper. split; [apply length_map |]. split.
  - induction s as [|c s IH]; simpl; [reflexivity |].
    now rewrite to_upper_not_lower, IH.
  - induction s as [|c s IH]; simpl; [reflexivity |].
    intros H. apply orb_false_iff in H. destruct H as [Hc Hs].
    now rewrite (to_upper_fixes c Hc), IH.
Qed.

(** *** Clock arithmetic *)

Lemma clock_bounds (total_ms : Z) :
  0 <= minutes total_ms < 60
  /\ 0 <= seconds total_ms < 60
  /\ 0 <= milliseconds total_ms < 1000.
Proof.
  unfold minutes, seconds, milliseconds.
  pose proof (Z.mod_pos_bound (total_ms / 1000) 3600 ltac:(lia)).
  pose proof (Z.mod_pos_bound (total_ms / 1000) 60 ltac:(lia)).
  pose proof (Z.mod_pos_bound total_ms 1000 ltac:(lia)).
  repeat split; try lia.
  - apply Z.div_pos; lia.
  - apply Z.div_lt_upper_bound; lia.
Qed.

Lemma hours_nonneg (total_ms : Z) : 0 <= total_ms -> 0 <= hours total_ms.
Proof. intros H. unfold hours. repeat apply Z.div_pos; lia. Qed.

(** The clock reading is split without loss. *)
Lemma clock_total (total_ms : Z) :
  total_ms =
  ((hours total_ms * 60 + minutes total_ms) * 60 + seconds total_ms) * 1000
  + milliseconds total_ms.
Proof.
  unfold hours, minutes, seconds, milliseconds.
  pose proof (Z.div_mod total_ms 1000 ltac:(lia)).
  pose proof (Z.div_mod (total_ms / 1000) 3600 ltac:(lia)).
  pose proof (Z.div_mod ((total_ms / 1000) mod 3600) 60 ltac:(lia)).
  assert ((total_ms / 1000) mod 3600 mod 60 = (total_ms / 1000) mod 60).
  { apply Z.mod_mod_divide. exists 60. reflexivity. }
  lia.
Qed.

(** *** Widths of small numbers *)

Lemma below_check (P : Z -> bool) (N : nat) :
  List.forallb P (List.map Z.of_nat (seq 0 N)) = true ->
  forall n, 0 <= n < Z.of_nat N -> P n = true.
Proof.
  intros H n Hn. rewrite List.forallb_forall in H. apply H.
  apply in_map_iff. exists (Z.to_nat n). split; [lia |].
  apply in_seq. lia.
Qed.

Lemma zfill2_length (n : Z) :
  0 <= n < 100 -> String.length (zfill_d 2 n) = 2%nat.
Proof.
  intros H.
  apply (below_check (fun n => (String.length (zfill_d 2 n) =? 2)%nat) 100)
    in H; [now apply Nat.eqb_eq in H |].
  vm_compute. reflexivity.
Qed.

Lemma zfill3_length (n : Z) :
  0 <= n < 1000 -> String.length (zfill_d 3 n) = 3%nat.
Proof.
  intros H.
  apply (below_check (fun n => (String.length (zfill_d 3 n) =? 3)%nat) 1000)
    in H; [now apply Nat.eqb_eq in H |].
  vm_compute. reflexivity.
Qed.

(** *** [strip] and [upper] do what their names say *)






End LoggerFacts.

Module LoggerClaims.
Import PyStr PyStrFacts PyFmt PyFmtFacts Logger LoggerFacts.

(** C9. For a clock reading and a bias that are not negative the time
    stamp is hours, minutes, seconds and milliseconds joined as
    [HH:MM:SS.mmm]; every part is made of digits only; hours take at
    least two of them, minutes and seconds exactly two, milliseconds
    exactly three; minutes and seconds are below 60 and milliseconds
    below 1000. *)
Theorem timestamp_format :
  forall ticks_ms bias_ms : Z,
    0 <= ticks_ms -> 0 <= bias_ms ->
    let total_ms := ticks_ms + bias_ms in
    let HH := zfill_d 2 (hours total_ms) in
    let MM := zfill_d 2 (minutes total_ms) in
    let SS := zfill_d 2 (seconds total_ms) in
    let mmm := zfill_d 3 (milliseconds total_ms) in
    _get_time_HH_MM_SS_mmm ticks_ms bias_ms
    = HH ++ ":" ++ MM ++ ":" ++ SS ++ "." ++ mmm
    /\ (2 <= String.length HH)%nat
    /\ String.length MM = 2%nat
    /\ String.length SS = 2%nat
    /\ String.length mmm = 3%nat
    /\ forallb is_digit HH = true /\ forallb is_digit MM = true
    /\ forallb is_digit SS = true /\ forallb is_digit mmm = true
    /\ 0 <= hours total_ms
    /\ 0 <= minutes total_ms < 60
    /\ 0 <= seconds total_ms < 60
    /\ 0 <= milliseconds total_ms < 1000.
Proof.
  intros ticks_ms bias_ms Ht Hb total_ms HH MM SS mmm.
  destruct (clock_bounds total_ms) as (Hm & Hs & Hms).
  assert (Hh : 0 <= hours total_ms) by (apply hours_nonneg; lia).
  split; [reflexivity |].
  split; [apply zfill_min_length; lia |].
  split; [apply zfill2_length; lia |].
  split; [apply zfill2_length; lia |].
  split; [apply zfill3_length; lia |].
  split; [apply zfill_digits; lia |].
  split; [apply zfill_digits; lia |].
  split; [apply zfill_digits; lia |].
  split; [apply zfill_digits; lia |].
  auto.
Qed.

(** The time stamp of the class comment, 15.750 s after start. *)
Lemma timestamp_format_example :
  0 <= 15750 /\ 0 <= 0
  /\ _get_time_HH_MM_SS_mmm 15750 0 = "00:00:15.750"
  /\ 0 <= seconds (15750 + 0) < 60.
Proof.
  split; [lia |]. split; [lia |].
  destruct (timestamp_format 15750 0 ltac:(lia) ltac:(lia))
    as (E & _ & _ & _ & _ & _ & _ & _ & _ & _ & _ & Hs & _).
  split; [rewrite E; vm_compute; reflexivity | exact Hs].
Defined.


End LoggerClaims.

(** ** The program on scripted peripherals *)

Module ScriptFacts.
Import PyStr Main Delivery Script.

(** Three iterations: the first message carries [0.0], the second and the
    third the signal strength of the first acknowledgment, the second
    delivery having failed; the counter goes 1, 2, 3 and ends at 4. *)
Example three_iterations :
  match @run _ board 3 initial start with
  | Some (v, w, tr) =>
      counter v = 4
      /\ last_rssi v = Some (-50.0)%float
      /\ messages tr = [" 1  0.0  23.50  1013.25  45.00  155.625000";
                        " 2  -42.5  23.75  1013.50  44.50  153.550000";
                        " 3  -42.5  24.00  1014.00  44.00  149.400000"]
      /\ pauses tr = [0.1; 0.1; 0.1]%float
  | None => False
  end.
Proof. vm_compute. repeat split. Qed.

(** With two retries an acknowledgment of the third try is still
    received, after three transmissions. *)
Example third_try_acknowledged :
  @deliver _ scripted_link (to_bytes "m") 2 1.0%float
    [None; None; Some (-61.0)%float]
  = (Acknowledged (-61.0)%float, [],
     [to_bytes "m"; to_bytes "m"; to_bytes "m"]).
Proof. vm_compute. reflexivity. Qed.

(** With two retries there is no fourth try: the answer it would have got
    is left unread. *)
Example no_fourth_try :
  @deliver _ scripted_link (to_bytes "m") 2 1.0%float
    [None; None; None; Some (-61.0)%float]
  = (Exhausted, [Some (-61.0)%float],
     [to_bytes "m"; to_bytes "m"; to_bytes "m"]).
Proof. vm_compute. reflexivity. Qed.

(** An acknowledgment of the first try ends the delivery. *)
Example first_try_acknowledged :
  @deliver _ scripted_link (to_bytes "m") 2 1.0%float
    [Some (-40.0)%float; Some (-61.0)%float]
  = (Acknowledged (-40.0)%float, [Some (-61.0)%float], [to_bytes "m"]).
Proof. vm_compute. reflexivity. Qed.

(** The altitude at 1013.25 hPa. *)
Example altitude_at_1013_25 : altitude 1013.25%float = 155.625%float.
Proof. vm_compute. reflexivity. Qed.

End ScriptFacts.

(** ** Numerals read back *)

Module PyParseFacts.
Import PyStr PyStrFacts PyFmt PyFmtFacts PyParse.

Lemma to_int_proper (n : Z) :
  Z.to_int n <> Decimal.Pos Decimal.Nil /\ Z.to_int n <> Decimal.Neg Decimal.Nil.
Proof.
  destruct n as [|p|p]; simpl; split; try discriminate;
    intros [= H]; now apply DecimalPos.Unsigned.to_uint_nonnil in H.
Qed.

(** [int(str(n)) == n] *)
Lemma int_of_str_of_int (n : Z) : int_of_str (of_int n) = Some n.
Proof.
  unfold int_of_str, of_int. destruct (to_int_proper n) as [Hp Hn].
  rewrite NilZero.isi by assumption. simpl. now rewrite DecimalZ.of_to.
Qed.

Lemma uint_of_digits (n : Z) :
  0 <= n ->
  exists d, NilEmpty.uint_of_string (of_int n) = Some d /\ Z.of_uint d = n.
Proof.
  intros Hn. pose proof (int_of_str_of_int n) as H.
  unfold int_of_str, NilZero.int_of_string in H.
  pose proof (of_int_nonempty n Hn) as Hl. pose proof (of_int_digits n Hn) as Hd.
  destruct (of_int n) as [|c r]; [simpl in Hl; lia |].
  simpl in Hd. apply andb_true_iff in Hd. destruct Hd as [Hc _].
  assert (Hm : Ascii.eqb c "-" = false)
    by (destruct (Ascii.eqb_spec c "-") as [-> |]; [discriminate Hc | reflexivity]).
  rewrite Hm in H. unfold NilZero.uint_of_string in H.
  destruct (NilEmpty.uint_of_string (String c r)) as [d|]; [| discriminate H].
  exists d. split; [reflexivity |]. simpl in H. now injection H.
Qed.

Lemma uint_of_zeros (k : nat) (s : string) (d : Decimal.uint) :
  NilEmpty.uint_of_string s = Some d ->
  exists d', NilEmpty.uint_of_string (replicate k "0" ++ s) = Some d'
             /\ Z.of_uint d' = Z.of_uint d.
Proof.
  intros H. induction k as [|k (d' & E & V)]; [now exists d |].
  exists (Decimal.D0 d'). simpl. rewrite E. split; [reflexivity | exact V].
Qed.

(** A numeral filled with zeros on the left reads as the same number. *)
Lemma int_of_str_rjust (width : nat) (n : Z) :
  0 <= n -> int_of_str (rjust width "0" (of_int n)) = Some n.
Proof.
  intros Hn. unfold rjust.
  destruct (width - String.length (of_int n))%nat as [|k] eqn:K.
  - apply int_of_str_of_int.
  - destruct (uint_of_digits n Hn) as (d & E & V).
    destruct (uint_of_zeros (S k) _ _ E) as (d' & E' & V').
    unfold int_of_str, NilZero.int_of_string.
    change (replicate (S k) "0" ++ of_int n)
      with (String "0" (replicate k "0" ++ of_int n)) in *.
    change (Ascii.eqb "0" "-") with false. cbv iota.
    unfold NilZero.uint_of_string. rewrite E'. simpl. congruence.
Qed.

Lemma int_of_str_zfill (width : nat) (n : Z) :
  0 <= n -> int_of_str (zfill_d width n) = Some n.
Proof. intros Hn. rewrite zfill_nonneg by assumption. now apply int_of_str_rjust. Qed.

(** Zero fill loses nothing: equal texts come from equal numbers. *)
Lemma zfill_inj (width : nat) (a b : Z) :
  0 <= a -> 0 <= b -> zfill_d width a = zfill_d width b -> a = b.
Proof.
  intros Ha Hb E. pose proof (int_of_str_zfill width a Ha) as Da.
  rewrite E, (int_of_str_zfill width b Hb) in Da. now injection Da.
Qed.

Lemma of_int_inj (a b : Z) : of_int a = of_int b -> a = b.
Proof.
  intros E. pose proof (int_of_str_of_int a) as Da.
  rewrite E, int_of_str_of_int in Da. now injection Da.
Qed.

(** *** Cutting concatenations apart *)

Lemma app_inj_head (a b c d : string) :
  a ++ b = c ++ d -> String.length a = String.length c -> a = c /\ b = d.
Proof.
  revert c. induction a as [|x a IH]; intros [|y c] E L; simpl in *;
    try discriminate L.
  - now split.
  - injection E as -> E. injection L as L.
    destruct (IH c E L) as [-> ->]. now split.
Qed.

Lemma app_inj_tail (a b c d : string) :
  a ++ b = c ++ d -> String.length b = String.length d -> a = c /\ b = d.
Proof.
  intros E L. apply app_inj_head; [exact E |].
  apply (f_equal String.length) in E. rewrite !length_app in E. lia.
Qed.

End PyParseFacts.

(** ** More on the logger's time stamp *)

Module StampFacts.
Import PyStr PyStrFacts PyFmt PyFmtFacts PyParse PyParseFacts Logger LoggerFacts.

(** X1. Splitting a clock reading into hours, minutes, seconds and
    milliseconds loses nothing, for every integer reading, negative ones
    included: the reading is recovered from the four numbers, and the last
    three are always in their ranges. *)
Theorem clock_split_lossless :
  forall total_ms : Z,
    total_ms =
      ((hours total_ms * 60 + minutes total_ms) * 60 + seconds total_ms) * 1000
      + milliseconds total_ms
    /\ 0 <= minutes total_ms < 60
    /\ 0 <= seconds total_ms < 60
    /\ 0 <= milliseconds total_ms < 1000.
Proof.
  intros total_ms. split; [apply clock_total | apply clock_bounds].
Qed.

Lemma hours_below_100 (total_ms : Z) :
  0 <= total_ms < 360000000 -> 0 <= hours total_ms < 100.
Proof.
  intros H. split; [apply hours_nonneg; lia |].
  unfold hours. apply Z.div_lt_upper_bound; [lia |].
  apply Z.div_lt_upper_bound; lia.
Qed.

Lemma stamp_tail_length (total_ms : Z) :
  String.length (":" ++ zfill_d 2 (minutes total_ms) ++ ":"
                 ++ zfill_d 2 (seconds total_ms) ++ "."
                 ++ zfill_d 3 (milliseconds total_ms)) = 10%nat.
Proof.
  destruct (clock_bounds total_ms) as (Hm & Hs & Hms).
  simpl String.length. rewrite length_app, zfill2_length by lia.
  simpl String.length. rewrite length_app, zfill2_length by lia.
  simpl String.length. rewrite zfill3_length by lia. reflexivity.
Qed.

(** X2. During the first hundred hours the time stamp is exactly twelve
    characters long. *)
Theorem stamp_width :
  forall ticks_ms bias_ms : Z,
    0 <= ticks_ms + bias_ms < 360000000 ->
    String.length (_get_time_HH_MM_SS_mmm ticks_ms bias_ms) = 12%nat.
Proof.
  intros ticks_ms bias_ms H. unfold _get_time_HH_MM_SS_mmm.
  rewrite length_app, stamp_tail_length.
  rewrite zfill2_length; [reflexivity |].
  now apply hours_below_100.
Qed.

Lemma stamp_width_example :
  0 <= 5575970 + 0 < 360000000
  /\ String.length (_get_time_HH_MM_SS_mmm 5575970 0) = 12%nat
  /\ _get_time_HH_MM_SS_mmm 5575970 0 = "01:32:55.970".
Proof.
  split; [lia |]. split.
  - apply (stamp_width 5575970 0). lia.
  - vm_compute. reflexivity.
Defined.

(** X3. Two clock readings that are not negative and differ give different
    time stamps. *)
Theorem stamp_injective :
  forall ticks1 bias1 ticks2 bias2 : Z,
    0 <= ticks1 + bias1 -> 0 <= ticks2 + bias2 ->
    _get_time_HH_MM_SS_mmm ticks1 bias1 = _get_time_HH_MM_SS_mmm ticks2 bias2 ->
    ticks1 + bias1 = ticks2 + bias2.
Proof.
  intros ticks1 bias1 ticks2 bias2 H1 H2 E.
  unfold _get_time_HH_MM_SS_mmm in E.
  set (a := ticks1 + bias1) in *. set (b := ticks2 + bias2) in *.
  destruct (clock_bounds a) as (Hma & Hsa & Hmsa).
  destruct (clock_bounds b) as (Hmb & Hsb & Hmsb).
  apply app_inj_tail in E; [| now rewrite !stamp_tail_length].
  destruct E as [Eh E]. injection E as E.
  apply app_inj_head in E; [| rewrite !zfill2_length; lia].
  destruct E as [Em E]. injection E as E.
  apply app_inj_head in E; [| rewrite !zfill2_length; lia].
  destruct E as [Es E]. injection E as E.
  apply zfill_inj in Eh; [| now apply hours_nonneg | now apply hours_nonneg].
  apply zfill_inj in Em; [| lia | lia].
  apply zfill_inj in Es; [| lia | lia].
  apply zfill_inj in E; [| lia | lia].
  rewrite (clock_total a), (clock_total b). congruence.
Qed.

Lemma stamp_injective_example :
  0 <= 15000 + 750 /\ 0 <= 15750 + 0
  /\ _get_time_HH_MM_SS_mmm 15000 750 = _get_time_HH_MM_SS_mmm 15750 0
  /\ 15000 + 750 = 15750 + 0.
Proof.
  split; [lia |]. split; [lia |]. split; [vm_compute; reflexivity |].
  apply (stamp_injective 15000 750 15750 0); [lia | lia |].
  vm_compute. reflexivity.
Defined.

(** X4. A bias that makes the reading negative gives a time stamp that begins
    with a minus sign: the hours are negative. *)
Theorem stamp_negative :
  forall ticks_ms bias_ms : Z,
    ticks_ms + bias_ms < 0 ->
    exists rest,
      _get_time_HH_MM_SS_mmm ticks_ms bias_ms = String "-" rest
      /\ hours (ticks_ms + bias_ms) < 0.
Proof.
  intros ticks_ms bias_ms H.
  assert (Hh : hours (ticks_ms + bias_ms) < 0).
  { unfold hours. apply Z.div_lt_upper_bound; [lia |].
    assert ((ticks_ms + bias_ms) / 1000 < 0)
      by (apply Z.div_lt_upper_bound; lia).
    lia. }
  unfold _get_time_HH_MM_SS_mmm. unfold zfill_d at 1.
  destruct (Z.ltb_spec (hours (ticks_ms + bias_ms)) 0) as [_ | G]; [| lia].
  eexists. split; [reflexivity | exact Hh].
Qed.

Lemma stamp_negative_example :
  0 + -1 < 0
  /\ exists rest,
      _get_time_HH_MM_SS_mmm 0 (-1) = String "-" rest
      /\ hours (0 + -1) < 0.
Proof. split; [lia |]. apply (stamp_negative 0 (-1)). lia. Defined.

End StampFacts.

(** ** More on the lines of the log *)

Module LineFacts.
Import PyStr PyStrFacts PyFmt PyFmtFacts PyParse PyParseFacts.
Import Logger LoggerFacts LoggerCalls.

(** [final_string] with its parts in reading order. *)
Lemma final_string_parts (ticks_ms : Z) (line_type details : string)
    (time_bias : Z) :
  final_string ticks_ms line_type details time_bias
  = "[" ++ _get_time_HH_MM_SS_mmm ticks_ms time_bias ++ "]  "
    ++ ("[" ++ strip (upper line_type) ++ "]")
    ++ mul_space (MAX_LOG_TYPE_LEN
                  - len ("[" ++ strip (upper line_type) ++ "]") + 4)
    ++ strip details.
Proof. unfold final_string. rewrite !app_assoc. reflexivity. Qed.

(** X5. The tag and its padding fill eleven characters, so that the details
    of all lines start in the same column; a tag longer than that takes
    the room it needs and the details follow it directly. *)
Theorem tag_field_width :
  forall (ticks_ms : Z) (line_type details : string) (time_bias : Z),
  exists field,
    final_string ticks_ms line_type details time_bias
    = "[" ++ _get_time_HH_MM_SS_mmm ticks_ms time_bias ++ "]  "
      ++ field ++ strip details
    /\ String.length field
       = Nat.max 11 (2 + String.length (strip (upper line_type))).
Proof.
  intros ticks_ms line_type details time_bias.
  set (T := strip (upper line_type)).
  exists (("[" ++ T ++ "]")
          ++ mul_space (MAX_LOG_TYPE_LEN - len ("[" ++ T ++ "]") + 4)).
  split.
  - rewrite final_string_parts. fold T. now rewrite !app_assoc.
  - rewrite length_app. unfold mul_space, len, MAX_LOG_TYPE_LEN.
    rewrite length_replicate. simpl String.length. rewrite length_app.
    simpl String.length. lia.
Qed.

Lemma info_error_files (self : t) (ticks_ms : Z) (text : string) :
  file (add_info_line self ticks_ms text)
  = (file self
     ++ [("[" ++ _get_time_HH_MM_SS_mmm ticks_ms 0 ++ "]  [INFO]     "
          ++ strip text ++ newline)%string])%list
  /\ file (add_error_line self ticks_ms text)
     = (file self
        ++ [("[" ++ _get_time_HH_MM_SS_mmm ticks_ms 0 ++ "]  [ERROR]    "
             ++ strip text ++ newline)%string])%list.
Proof.
  unfold add_info_line, add_error_line, _add_line.
  cbn [file]. rewrite !final_string_parts.
  change (strip (upper "INFO")) with "INFO".
  change (strip (upper "ERROR")) with "ERROR".
  change (mul_space (MAX_LOG_TYPE_LEN - len ("[" ++ "INFO" ++ "]") + 4))
    with "     ".
  change (mul_space (MAX_LOG_TYPE_LEN - len ("[" ++ "ERROR" ++ "]") + 4))
    with "    ".
  split; do 2 f_equal; rewrite !app_assoc; reflexivity.
Qed.

(** X6. [add_info_line] and [add_error_line] each append one entry: the time
    stamp, the tag INFO followed by five spaces or ERROR followed by four,
    the text without surrounding white space, and a newline.  Whatever the
    text, the details of an information line and of an error line written
    at the same moment start in the same column. *)
Theorem info_and_error_lines :
  forall (self : t) (ticks_ms : Z) (text : string),
    file (add_info_line self ticks_ms text)
    = (file self
       ++ [("[" ++ _get_time_HH_MM_SS_mmm ticks_ms 0 ++ "]  [INFO]     "
            ++ strip text ++ newline)%string])%list
    /\ file (add_error_line self ticks_ms text)
       = (file self
          ++ [("[" ++ _get_time_HH_MM_SS_mmm ticks_ms 0 ++ "]  [ERROR]    "
               ++ strip text ++ newline)%string])%list
    /\ String.length ("[" ++ _get_time_HH_MM_SS_mmm ticks_ms 0
                      ++ "]  [INFO]     ")
       = String.length ("[" ++ _get_time_HH_MM_SS_mmm ticks_ms 0
                        ++ "]  [ERROR]    ").
Proof.
  intros self ticks_ms text.
  destruct (info_error_files self ticks_ms text) as [Ei Ee].
  split; [exact Ei |]. split; [exact Ee |].
  simpl String.length. rewrite !length_app. reflexivity.
Qed.

(** *** White space and case *)

Lemma lstrip_spaces (pre s : string) :
  forallb is_space pre = true -> lstrip (pre ++ s) = lstrip s.
Proof.
  induction pre as [|c pre IH]; simpl; [reflexivity |].
  intros H. apply andb_true_iff in H. destruct H as [Hc Hp].
  rewrite Hc. now apply IH.
Qed.

Lemma rstrip_all_spaces (s : string) :
  forallb is_space s = true -> rstrip s = "".
Proof.
  induction s as [|c s IH]; simpl; [reflexivity |].
  intros H. apply andb_true_iff in H. destruct H as [Hc Hs].
  now rewrite (IH Hs), Hc.
Qed.

Lemma lstrip_all_spaces (s : string) :
  forallb is_space s = true -> lstrip s = "".
Proof.
  induction s as [|c s IH]; simpl; [reflexivity |].
  intros H. apply andb_true_iff in H. destruct H as [Hc Hs].
  rewrite Hc. now apply IH.
Qed.

Lemma rstrip_spaces (s post : string) :
  forallb is_space post = true -> rstrip (s ++ post) = rstrip s.
Proof.
  intros H. induction s as [|c s IH]; simpl.
  - now apply rstrip_all_spaces.
  - now rewrite IH.
Qed.

(** White space around a text does not change what [strip] gives. *)
Lemma strip_spaces (pre s post : string) :
  forallb is_space pre = true -> forallb is_space post = true ->
  strip (pre ++ s ++ post) = strip s.
Proof.
  intros Hpre Hpost. unfold strip. rewrite lstrip_spaces by assumption.
  induction s as [|c s IH]; simpl.
  - now rewrite (lstrip_all_spaces post Hpost).
  - destruct (is_space c); [exact IH |].
    change (String c (s ++ post)) with (String c s ++ post).
    now apply rstrip_spaces.
Qed.

Lemma strip_idem (s : string) : strip (strip s) = strip s.
Proof.
  destruct (strip_split s) as (pre & post & E & Hpre & Hpost).
  rewrite E at 2. now rewrite strip_spaces.
Qed.

Lemma upper_app (a b : string) : upper (a ++ b) = upper a ++ upper b.
Proof.
  unfold upper. induction a as [|c a IH]; simpl; [reflexivity | now rewrite IH].
Qed.

Lemma to_upper_space (c : ascii) : is_space (to_upper c) = is_space c.
Proof. destruct c as [[] [] [] [] [] [] [] []]; reflexivity. Qed.

Lemma upper_spaces (s : string) :
  forallb is_space (upper s) = forallb is_space s.
Proof.
  unfold upper. induction s as [|c s IH]; simpl; [reflexivity |].
  now rewrite to_upper_space, IH.
Qed.

Lemma to_upper_idem (c : ascii) : to_upper (to_upper c) = to_upper c.
Proof. destruct c as [[] [] [] [] [] [] [] []]; reflexivity. Qed.

Lemma upper_idem (s : string) : upper (upper s) = upper s.
Proof.
  unfold upper. induction s as [|c s IH]; simpl; [reflexivity |].
  now rewrite to_upper_idem, IH.
Qed.

(** X7. The line does not depend on the case of the type nor on white space
    around the type or around the details. *)
Theorem line_normalised :
  forall (ticks_ms : Z) (line_type details : string) (time_bias : Z)
         (pre post pre' post' : string),
    forallb is_space pre = true -> forallb is_space post = true ->
    forallb is_space pre' = true -> forallb is_space post' = true ->
    final_string ticks_ms (pre ++ line_type ++ post)
      (pre' ++ details ++ post') time_bias
    = final_string ticks_ms line_type details time_bias
    /\ final_string ticks_ms (upper line_type) details time_bias
       = final_string ticks_ms line_type details time_bias.
Proof.
  intros ticks_ms line_type details time_bias pre post pre' post'
    Hpre Hpost Hpre' Hpost'.
  rewrite !final_string_parts. split.
  - rewrite !upper_app.
    rewrite (strip_spaces (upper pre) (upper line_type) (upper post))
      by (now rewrite upper_spaces).
    now rewrite (strip_spaces pre' details post').
  - now rewrite upper_idem.
Qed.

Lemma line_normalised_example :
  forallb is_space " " = true /\ forallb is_space "  " = true
  /\ final_string 15750 (" " ++ "warning" ++ "  ") (" " ++ "hot" ++ "  ") 0
     = final_string 15750 "warning" "hot" 0
  /\ final_string 15750 (upper "warning") "hot" 0
     = final_string 15750 "warning" "hot" 0.
Proof.
  split; [reflexivity |]. split; [reflexivity |].
  apply (line_normalised 15750 "warning" "hot" 0 " " "  " " " "  ");
    reflexivity.
Defined.

End LineFacts.

(** ** The log file as a whole *)

Module LogFileFacts.
Import PyStr PyStrFacts PyFmt PyFmtFacts PyParse PyParseFacts.
Import Logger LoggerFacts LoggerCalls LineFacts.

Lemma count_app (p : ascii -> bool) (a b : string) :
  count p (a ++ b) = (count p a + count p b)%nat.
Proof. induction a as [|c a IH]; simpl; [reflexivity | rewrite IH; lia]. Qed.

Lemma count_none (p q : ascii -> bool) (s : string) :
  (forall c, q c = true -> p c = false) ->
  forallb q s = true -> count p s = O.
Proof.
  intros Hqp. induction s as [|c s IH]; simpl; [reflexivity |].
  intros H. apply andb_true_iff in H. destruct H as [Hc Hs].
  now rewrite (Hqp c Hc), IH.
Qed.

Lemma numeral_not_newline (c : ascii) :
  numeral_char c = true -> is_newline c = false.
Proof. destruct c as [[] [] [] [] [] [] [] []]; try reflexivity; discriminate. Qed.

Lemma zfill_no_newline (width : nat) (n : Z) :
  count is_newline (zfill_d width n) = O.
Proof.
  apply (count_none _ numeral_char); [exact numeral_not_newline |].
  unfold zfill_d. destruct (n <? 0).
  - simpl. apply forallb_rjust; [reflexivity |]. apply (pct_d_chars (- n)).
  - apply forallb_rjust; [reflexivity |]. apply (pct_d_chars n).
Qed.

Lemma stamp_no_newline (ticks_ms bias_ms : Z) :
  count is_newline (_get_time_HH_MM_SS_mmm ticks_ms bias_ms) = O.
Proof.
  unfold _get_time_HH_MM_SS_mmm.
  repeat (rewrite count_app || rewrite zfill_no_newline). reflexivity.
Qed.

Lemma mul_space_no_newline (k : Z) : count is_newline (mul_space k) = O.
Proof.
  unfold mul_space. induction (Z.to_nat k) as [|n IH]; simpl; [reflexivity |].
  exact IH.
Qed.

(** X8. The entry that [_add_line] writes ends with a newline and has no
    other one except those inside the stripped type and details: an entry
    is a single line of the file exactly when these two contain no
    newline. *)
Theorem entry_newlines :
  forall (self : t) (ticks_ms : Z) (line_type details : string)
         (time_bias : Z),
  exists body,
    file (_add_line self ticks_ms line_type details time_bias)
    = (file self ++ [(body ++ newline)%string])%list
    /\ count is_newline (body ++ newline)
       = (1 + count is_newline (strip (upper line_type))
          + count is_newline (strip details))%nat.
Proof.
  intros self ticks_ms line_type details time_bias.
  exists (final_string ticks_ms line_type details time_bias).
  split; [reflexivity |].
  rewrite final_string_parts.
  repeat rewrite count_app.
  rewrite stamp_no_newline, mul_space_no_newline.
  change (count is_newline newline) with 1%nat.
  change (count is_newline "[") with O.
  change (count is_newline "]  ") with O.
  change (count is_newline "]") with O.
  lia.
Qed.

Lemma apply_file (self : t) (c : call) :
  exists added,
    file (apply self c) = (file self ++ added)%list
    /\ List.length added = (if writes c then 1 else 0)%nat
    /\ Forall (fun e => exists body, e = body ++ newline) added
    /\ log_file_path (apply self c) = log_file_path self
    /\ log_file_number (apply self c) = log_file_number self.
Proof.
  destruct c as [tk lt d b | tk tx | tk tx |].
  - exists [final_string tk lt d b ++ newline]. repeat split.
    constructor; [now eexists | constructor].
  - exists [final_string tk "INFO" tx 0 ++ newline]. repeat split.
    constructor; [now eexists | constructor].
  - exists [final_string tk "ERROR" tx 0 ++ newline]. repeat split.
    constructor; [now eexists | constructor].
  - exists []. cbn [apply force_saving writes]. rewrite List.app_nil_r.
    repeat split. constructor.
Qed.

(** X9. The file only grows: whatever sequence of calls is made on a logger,
    what was in the file stays where it was, one entry ending in a newline
    is appended for every call that adds a line, none for [force_saving],
    and the number and the path of the file do not change. *)
Theorem log_append_only :
  forall (cs : list call) (self : t),
  exists added,
    file (apply_all self cs) = (file self ++ added)%list
    /\ List.length added = List.length (List.filter writes cs)
    /\ Forall (fun e => exists body, e = body ++ newline) added
    /\ log_file_path (apply_all self cs) = log_file_path self
    /\ log_file_number (apply_all self cs) = log_file_number self.
Proof.
  induction cs as [|c cs IH]; intros self.
  - exists []. simpl. rewrite List.app_nil_r. repeat split. constructor.
  - unfold apply_all. cbn [List.fold_left]. fold (apply_all (apply self c) cs).
    destruct (IH (apply self c)) as (added & Ef & El & Ea & Ep & En).
    destruct (apply_file self c) as (first & Ff & Fl & Fa & Fp & Fn).
    exists (first ++ added)%list.
    rewrite Ef, Ff, Ep, Fp, En, Fn, <- List.app_assoc.
    split; [reflexivity |]. split.
    + rewrite List.length_app, Fl, El. cbn [List.filter].
      destruct (writes c); reflexivity.
    + split; [| split; reflexivity].
      apply Forall_app. now split.
Qed.

(** X10. A new logger writes to [logs_files/log_N.txt], where [N] is the number
    of entries the directory has; the file starts with the header line.
    Two loggers write to the same path exactly when they were created with
    the same number of entries in the directory. *)
Theorem init_path :
  forall l1 l2 : list string,
    (log_file_path (init l1) = log_file_path (init l2)
     <-> List.length l1 = List.length l2)
    /\ (exists name,
          log_file_path (init l1) = "logs_files/log_" ++ name ++ ".txt"
          /\ int_of_str name = Some (Z.of_nat (List.length l1)))
    /\ file (init l1) = ["=== LOGS STARTED (v0.1) ===" ++ newline].
Proof.
  intros l1 l2.
  split; [| split; [eexists; split;
                    [reflexivity | apply int_of_str_of_int] | reflexivity]].
  unfold init. cbn [log_file_path]. split.
  - intros E.
    assert (E' : of_int (Z.of_nat (List.length l1)) ++ ".txt"
                 = of_int (Z.of_nat (List.length l2)) ++ ".txt")
      by (simpl in E; congruence).
    apply app_inj_tail in E'; [| reflexivity].
    destruct E' as [E' _]. apply of_int_inj in E'. lia.
  - intros ->. reflexivity.
Qed.

(** *** The example at the end of the file *)

Lemma rstrip_keeps (a d : string) :
  d <> "" -> forallb is_digit d = true -> rstrip (a ++ d) = a ++ d.
Proof.
  intros Hd Dd.
  assert (B : rstrip d = d).
  { clear Hd. induction d as [|c d IH]; [reflexivity |].
    simpl in Dd. apply andb_true_iff in Dd. destruct Dd as [Dc Dd].
    simpl. rewrite (IH Dd). destruct d as [|x d].
    - destruct c as [[] [] [] [] [] [] [] []]; try reflexivity; discriminate Dc.
    - reflexivity. }
  induction a as [|x a IH]; [exact B |].
  simpl. rewrite IH. destruct (a ++ d) eqn:E; [| reflexivity].
  destruct a; simpl in E; [now subst | discriminate E].
Qed.

Lemma example_text_stripped (i : nat) :
  strip ("some text and " ++ of_int (Z.of_nat i))
  = "some text and " ++ of_int (Z.of_nat i).
Proof.
  unfold strip.
  change (lstrip ("some text and " ++ of_int (Z.of_nat i)))
    with ("some text and " ++ of_int (Z.of_nat i)).
  apply rstrip_keeps.
  - pose proof (of_int_nonempty (Z.of_nat i) ltac:(lia)) as H.
    intros E. rewrite E in H. simpl in H. lia.
  - apply of_int_digits. lia.
Qed.

Lemma apply_all_app (self : t) (cs cs' : list call) :
  apply_all self (cs ++ cs') = apply_all (apply_all self cs) cs'.
Proof. unfold apply_all. apply List.fold_left_app. Qed.

Lemma apply_all_cons (self : t) (c : call) (cs : list call) :
  apply_all self (c :: cs) = apply_all (apply self c) cs.
Proof. reflexivity. Qed.

Lemma info_lines_file (clock : nat -> Z) (ns : list nat) : forall self : t,
  file (apply_all self
          (List.map (fun i => AddInfoLine (clock i)
                                ("some text and " ++ of_int (Z.of_nat i))) ns))
  = (file self
     ++ List.map (fun i => ("[" ++ _get_time_HH_MM_SS_mmm (clock i) 0
                           ++ "]  [INFO]     some text and "
                           ++ of_int (Z.of_nat i) ++ newline)%string) ns)%list.
Proof.
  induction ns as [|i ns IH]; intros self.
  - simpl. now rewrite List.app_nil_r.
  - cbn [List.map]. rewrite apply_all_cons, IH. cbn [apply].
    destruct (info_error_files self (clock i)
                ("some text and " ++ of_int (Z.of_nat i))) as [E _].
    rewrite E, example_text_stripped, <- List.app_assoc.
    f_equal.
Qed.

(** X11. The example of the file leaves a log of 101 entries: the header, then
    for [i] from 0 to 99 the line [some text and i], in that order, each
    with the time stamp of the moment it was added and the tag INFO. *)
Theorem example_log :
  forall (logs_files_list : list string) (clock : nat -> Z),
    file (example logs_files_list clock)
    = (("=== LOGS STARTED (v0.1) ===" ++ newline)%string
       :: List.map (fun i => ("[" ++ _get_time_HH_MM_SS_mmm (clock i) 0
                             ++ "]  [INFO]     some text and "
                             ++ of_int (Z.of_nat i) ++ newline)%string)
                   (seq 0 100))%list
    /\ List.length (file (example logs_files_list clock)) = 101%nat.
Proof.
  intros logs_files_list clock.
  assert (E : file (example logs_files_list clock)
              = (("=== LOGS STARTED (v0.1) ===" ++ newline)%string
                 :: List.map (fun i => ("[" ++ _get_time_HH_MM_SS_mmm (clock i) 0
                                       ++ "]  [INFO]     some text and "
                                       ++ of_int (Z.of_nat i) ++ newline)%string)
                             (seq 0 100))%list).
  { unfold example, example_calls. rewrite apply_all_app.
    change (apply_all ?x [ForceSaving]) with x.
    rewrite info_lines_file. reflexivity. }
  split; [exact E |].
  rewrite E. cbn [List.length]. rewrite List.length_map, List.length_seq.
  reflexivity.
Qed.

End LogFileFacts.

(** ** More on the emitter loop *)

Module RunFacts.
Import PyStr PyStrFacts PyFmt PyFmtFacts PyParse PyParseFacts.
Import Main MainFacts Trace.

(** One iteration with everything it commands and what it leaves. *)
Lemma loop_body_trace {W : Type} `{Board W} (v : Vars) (w : W) :
  exists rest w' line,
    let text := " " ++ pct_d (counter v) ++ "  " ++ rest in
    let w1 := snd (sample raw_values w) in
    let w2 := snd (send_with_ack (to_bytes text) w1) in
    rest = pct_f 3 1 (rssi_or_zero (last_rssi v)) ++ "  "
           ++ pct_f 2 2 (PyFloat (fst (fst (fst (sample raw_values w)))))
           ++ "  "
           ++ pct_f 4 2 (PyFloat (snd (fst (fst (sample raw_values w)))))
           ++ "  " ++ pct_f 2 2 (PyFloat (snd (fst (sample raw_values w))))
           ++ "  "
           ++ pct_f 3 6
                (PyFloat (altitude (snd (fst (fst (sample raw_values w))))))
    /\ loop_body v w =
       Some ({| counter := counter v + 1;
                last_rssi := if fst (send_with_ack (to_bytes text) w1)
                             then Some (fst (rssi w2)) else last_rssi v |},
             w',
             [LedToggle; Print ("Send: " ++ text); SendWithAck (to_bytes text);
              Print line; Sleep 0.1%float])
    /\ line = if fst (send_with_ack (to_bytes text) w1)
              then "   +-> ACK received | RSSI (ACK): "
                   ++ pct_f 3 1 (PyFloat (fst (rssi (snd (rssi w2)))))
                   ++ " dBm"
              else "   +-> ACK missing".
Proof.
  unfold loop_body.
  destruct (sample raw_values w) as [[[t p] h] w1]. cbn [fst snd].
  rewrite msg_eq.
  exists (pct_f 3 1 (rssi_or_zero (last_rssi v)) ++ "  "
          ++ pct_f 2 2 (PyFloat t) ++ "  " ++ pct_f 4 2 (PyFloat p) ++ "  "
          ++ pct_f 2 2 (PyFloat h) ++ "  " ++ pct_f 3 6 (PyFloat (altitude p))).
  cbv zeta.
  match goal with |- context [send_with_ack ?d w1] =>
    destruct (send_with_ack d w1) as [[|] w2] end; cbn [fst snd].
  - destruct (rssi w2) as [x w3]. cbn [fst snd].
    destruct (rssi w3) as [y w4]. cbn [fst snd].
    rewrite ack_line_eq. do 2 eexists.
    split; [reflexivity |]. split; reflexivity.
  - do 2 eexists. split; [reflexivity |]. split; reflexivity.
Qed.

Lemma sent_payloads_app (a b : list event) :
  sent_payloads (a ++ b) = (sent_payloads a ++ sent_payloads b)%list.
Proof.
  induction a as [|e a IH]; [reflexivity |].
  destruct e; simpl; now rewrite IH.
Qed.

Lemma pauses_app (a b : list event) :
  pauses (a ++ b) = (pauses a ++ pauses b)%list.
Proof.
  induction a as [|e a IH]; [reflexivity |].
  destruct e; simpl; now rewrite IH.
Qed.

Lemma printed_app (a b : list event) :
  printed (a ++ b) = (printed a ++ printed b)%list.
Proof.
  induction a as [|e a IH]; [reflexivity |].
  destruct e; simpl; now rewrite IH.
Qed.

Lemma toggles_app (a b : list event) :
  toggles (a ++ b) = (toggles a + toggles b)%nat.
Proof.
  induction a as [|e a IH]; [reflexivity |].
  destruct e; simpl; now rewrite IH.
Qed.

(** X12. Every iteration does the same five things in the same order: toggle
    the LED, print the message, hand it to the radio, print the result,
    pause.  The result line says that the acknowledgment is missing
    exactly when [send_with_ack] returned false; otherwise it shows the
    signal strength read from the radio a second time, after the reading
    that is kept in [last_rssi]. *)
Theorem iteration_report :
  forall (W : Type) (B : Board W) (v : Vars) (w : W),
  exists text v' w' line,
    let w1 := snd (sample raw_values w) in
    let w2 := snd (send_with_ack (to_bytes text) w1) in
    loop_body v w =
      Some (v', w',
            [LedToggle; Print ("Send: " ++ text); SendWithAck (to_bytes text);
             Print line; Sleep 0.1%float])
    /\ line = (if fst (send_with_ack (to_bytes text) w1)
               then "   +-> ACK received | RSSI (ACK): "
                    ++ pct_f 3 1 (PyFloat (fst (rssi (snd (rssi w2)))))
                    ++ " dBm"
               else "   +-> ACK missing")
    /\ last_rssi v' = (if fst (send_with_ack (to_bytes text) w1)
                       then Some (fst (rssi w2)) else last_rssi v).
Proof.
  intros W B v w.
  destruct (loop_body_trace v w) as (rest & w' & line & _ & E & L).
  cbv zeta in E, L. do 4 eexists. cbv zeta.
  split; [exact E |]. split; [exact L | reflexivity].
Qed.

(** X13. The loop never stops by itself and never skips or repeats a number:
    [n] iterations hand [n] payloads to the radio, and their counters are
    the start value, the next integer, and so on, whatever the sensor and
    the radio answer. *)
Theorem run_sequence :
  forall (W : Type) (B : Board W) (n : nat) (v : Vars) (w : W),
  exists v' w' tr rests,
    run n v w = Some (v', w', tr)
    /\ List.length rests = n
    /\ sent_payloads tr = numbered (counter v) rests
    /\ counter v' = counter v + Z.of_nat n.
Proof.
  intros W B n. induction n as [|n IH]; intros v w.
  - exists v, w, [], []. repeat split. simpl. lia.
  - destruct (loop_body_trace v w) as (rest & w1 & line & _ & E & _).
    cbv zeta in E. cbn [run]. rewrite E.
    match type of E with _ = Some (?v1, _, _) =>
      destruct (IH v1 w1) as (v2 & w2 & tr & rests & E2 & Hl & Hs & Hc) end.
    rewrite E2. exists v2, w2. eexists. exists (rest :: rests).
    split; [reflexivity |]. split; [simpl; now rewrite Hl |]. split.
    + rewrite sent_payloads_app, Hs. reflexivity.
    + rewrite Hc. cbn [counter]. lia.
Qed.

(** X14. In [n] iterations the LED is toggled [n] times, [n] payloads are
    sent, two lines are printed for each, and the program pauses [n]
    times, each time for 0.1 s. *)
Theorem run_rhythm :
  forall (W : Type) (B : Board W) (n : nat) (v : Vars) (w : W),
  exists v' w' tr,
    run n v w = Some (v', w', tr)
    /\ toggles tr = n
    /\ List.length (sent_payloads tr) = n
    /\ List.length (printed tr) = (2 * n)%nat
    /\ pauses tr = List.repeat 0.1%float n.
Proof.
  intros W B n. induction n as [|n IH]; intros v w.
  - exists v, w, []. repeat split.
  - destruct (loop_body_trace v w) as (rest & w1 & line & _ & E & _).
    cbv zeta in E. cbn [run]. rewrite E.
    match type of E with _ = Some (?v1, _, _) =>
      destruct (IH v1 w1) as (v2 & w2 & tr & E2 & Ht & Hs & Hp & Hz) end.
    rewrite E2. do 3 eexists. split; [reflexivity |].
    rewrite toggles_app, sent_payloads_app, printed_app, pauses_app.
    rewrite List.length_app, List.length_app, Ht, Hs, Hp, Hz.
    repeat split. simpl. lia.
Qed.

End RunFacts.

(** ** The link-quality state over many iterations *)

Module LinkStateFacts.
Import PyStr PyStrFacts PyFmt PyFmtFacts Main MainFacts Trace RunFacts.

(** X15. Once a signal strength has been observed, [last_rssi] is never absent
    again, however many deliveries fail afterwards. *)
Theorem rssi_never_cleared :
  forall (W : Type) (B : Board W) (n : nat) (v : Vars) (w : W),
    last_rssi v <> None ->
    exists v' w' tr,
      run n v w = Some (v', w', tr) /\ last_rssi v' <> None.
Proof.
  intros W B n. induction n as [|n IH]; intros v w Hv.
  - now exists v, w, [].
  - destruct (loop_body_trace v w) as (rest & w1 & line & _ & E & _).
    cbv zeta in E. cbn [run]. rewrite E.
    match type of E with _ = Some (?v1, _, _) =>
      destruct (IH v1 w1) as (v2 & w2 & tr & E2 & H2) end.
    + cbn [last_rssi]. now destruct (fst (send_with_ack _ _)).
    + rewrite E2. do 3 eexists. split; [reflexivity | exact H2].
Qed.

Lemma rssi_never_cleared_example :
  last_rssi {| counter := 7; last_rssi := Some (-60.0)%float |} <> None
  /\ exists v' w' tr,
      @run _ Script.board 3
        {| counter := 7; last_rssi := Some (-60.0)%float |} Script.start
      = Some (v', w', tr)
      /\ last_rssi v' <> None.
Proof.
  split; [discriminate |].
  apply (rssi_never_cleared _ Script.board 3). discriminate.
Defined.

Lemma numbered_cons (c : Z) (r : string) (rs : list string) :
  numbered c (r :: rs)
  = to_bytes (" " ++ pct_d c ++ "  " ++ r) :: numbered (c + 1) rs.
Proof. reflexivity. Qed.

(** X16. While the radio gets no acknowledgment at all, [last_rssi] stays
    what it was, every message carries the same signal strength in its
    second field, and every iteration prints two lines: the message, then
    the report that the acknowledgment is missing.  From the start of the
    program that field is [0.0]. *)
Theorem silent_link :
  forall (W : Type) (B : Board W),
    (forall (d : list Byte.byte) (w : W), fst (send_with_ack d w) = false) ->
    forall (n : nat) (v : Vars) (w : W),
    exists v' w' tr rests,
      run n v w = Some (v', w', tr)
      /\ last_rssi v' = last_rssi v
      /\ List.length rests = n
      /\ sent_payloads tr
         = numbered (counter v)
             (List.map (fun r => pct_f 3 1 (rssi_or_zero (last_rssi v))
                                 ++ "  " ++ r) rests)
      /\ printed tr
         = missing_report (counter v)
             (List.map (fun r => pct_f 3 1 (rssi_or_zero (last_rssi v))
                                 ++ "  " ++ r) rests)
      /\ Forall (fun l => l = "   +-> ACK missing"
                          \/ exists t, l = "Send: " ++ t) (printed tr)
      /\ pct_f 3 1 (rssi_or_zero (last_rssi initial)) = "0.0".
Proof.
  intros W B Hs n. induction n as [|n IH]; intros v w.
  - exists v, w, [], []. repeat split. constructor.
  - cbn [run]. unfold loop_body.
    destruct (sample raw_values w) as [[[t p] h] w1].
    rewrite msg_eq.
    match goal with |- context [send_with_ack ?d w1] =>
      pose proof (Hs d w1) as Hd;
      destruct (send_with_ack d w1) as [ack w2] end.
    cbn [fst] in Hd. subst ack.
    destruct (IH {| counter := counter v + 1; last_rssi := last_rssi v |} w2)
      as (v2 & w3 & tr & rests & E2 & Hr & Hl & Hp & Hq & Hf & _).
    cbn [last_rssi counter] in Hr, Hp, Hq.
    rewrite E2. exists v2, w3. eexists.
    exists ((pct_f 2 2 (PyFloat t) ++ "  " ++ pct_f 4 2 (PyFloat p) ++ "  "
             ++ pct_f 2 2 (PyFloat h) ++ "  "
             ++ pct_f 3 6 (PyFloat (altitude p))) :: rests).
    split; [reflexivity |]. split; [exact Hr |].
    split; [simpl; now rewrite Hl |].
    rewrite sent_payloads_app, printed_app, Hp, Hq.
    split; [reflexivity |]. split; [reflexivity |].
    split; [| vm_compute; reflexivity].
    rewrite <- Hq. apply Forall_app. split; [| exact Hf].
    cbn [printed List.app]. constructor; [right; now eexists |].
    constructor; [now left | constructor].
Qed.

Lemma silent_link_example :
  (forall (d : list Byte.byte) (w : list (float * float * float)),
     fst (@send_with_ack _ silent_board d w) = false)
  /\ exists v' w' tr rests,
      @run _ silent_board 2 initial [(1, 2, 3)%float] = Some (v', w', tr)
      /\ last_rssi v' = last_rssi initial
      /\ List.length rests = 2%nat
      /\ sent_payloads tr
         = numbered (counter initial)
             (List.map (fun r => pct_f 3 1 (rssi_or_zero (last_rssi initial))
                                 ++ "  " ++ r) rests)
      /\ printed tr
         = missing_report (counter initial)
             (List.map (fun r => pct_f 3 1 (rssi_or_zero (last_rssi initial))
                                 ++ "  " ++ r) rests)
      /\ Forall (fun l => l = "   +-> ACK missing"
                          \/ exists t, l = "Send: " ++ t) (printed tr)
      /\ pct_f 3 1 (rssi_or_zero (last_rssi initial)) = "0.0".
Proof.
  split; [reflexivity |].
  apply (silent_link _ silent_board). reflexivity.
Defined.

End LinkStateFacts.

(** ** What a receiver can read in the message *)

Module MessageFacts.
Import PyStr PyStrFacts PyFmt PyFmtFacts PyParse PyParseFacts Main MainFacts.

Lemma numeral_not_space (c : ascii) :
  numeral_char c = true -> negb (is_space c) = true.
Proof. destruct c as [[] [] [] [] [] [] [] []]; try reflexivity; discriminate. Qed.

(** X17. The counter can be read back from the message: the first field, which
    contains no white space and so ends at the first separator, is a
    numeral whose value is the counter. *)
Theorem counter_reads_back :
  forall (c : Z) (r : option float) (t p h a : float),
  exists rest,
    msg c r t p h a = Some (" " ++ pct_d c ++ "  " ++ rest)
    /\ int_of_str (pct_d c) = Some c
    /\ forallb (fun ch => negb (is_space ch)) (pct_d c) = true.
Proof.
  intros c r t p h a. eexists. split; [apply msg_eq |].
  split; [apply int_of_str_of_int |].
  apply (forallb_impl _ _ _ numeral_not_space), pct_d_chars.
Qed.

(** *** Values that are not finite *)

Lemma fixed_nonfinite (prec : nat) (x : float) :
  is_finite x = false ->
  fixed prec x = "inf" \/ fixed prec x = "-inf" \/ fixed prec x = "nan".
Proof.
  unfold is_finite, fixed. destruct (Prim2SF x) as [s | [|] | | s m e];
    intros H; try discriminate H; auto.
Qed.

(** X18. An infinite or undefined value does not stop the loop: it is printed
    as the word [inf], [-inf] or [nan], right-justified in the width of
    its field.  For the pressure, whose width is 4, this gives one of
    [ inf], [-inf] and [ nan] in a message that is otherwise as usual. *)
Theorem nonfinite_field :
  forall (c : Z) (r : option float) (t p h a : float),
    is_finite p = false ->
    (forall width prec : nat,
       pct_f width prec (PyFloat p) = rjust width " " "inf"
       \/ pct_f width prec (PyFloat p) = rjust width " " "-inf"
       \/ pct_f width prec (PyFloat p) = rjust width " " "nan")
    /\ exists field,
        msg c r t p h a =
        Some (" " ++ pct_d c ++ "  " ++ pct_f 3 1 (rssi_or_zero r) ++ "  "
              ++ pct_f 2 2 (PyFloat t) ++ "  " ++ field ++ "  "
              ++ pct_f 2 2 (PyFloat h) ++ "  " ++ pct_f 3 6 (PyFloat a))
        /\ (field = " inf" \/ field = "-inf" \/ field = " nan").
Proof.
  intros c r t p h a Hp. split.
  - intros width prec. unfold pct_f. cbn [to_float].
    destruct (fixed_nonfinite prec p Hp) as [-> | [-> | ->]]; auto.
  - exists (pct_f 4 2 (PyFloat p)). split; [apply msg_eq |].
    unfold pct_f. cbn [to_float].
    destruct (fixed_nonfinite 2 p Hp) as [-> | [-> | ->]]; auto.
Qed.

Lemma nonfinite_field_example :
  is_finite infinity = false
  /\ msg 1 None 23.5%float infinity 45.0%float neg_infinity
     = Some " 1  0.0  23.50   inf  45.00  -inf".
Proof.
  split; [vm_compute; reflexivity |].
  destruct (nonfinite_field 1 None 23.5%float infinity 45.0%float neg_infinity)
    as (_ & field & E & _); [vm_compute; reflexivity |].
  vm_compute. reflexivity.
Defined.

(** *** How close the printed value is *)

Lemma round_half_even_close (num den : Z) :
  0 <= num -> 0 < den ->
  2 * Z.abs (round_half_even num den * den - num) <= den.
Proof.
  intros Hn Hd. unfold round_half_even.
  pose proof (Z.div_mod num den ltac:(lia)) as E.
  pose proof (Z.mod_pos_bound num den Hd) as B.
  set (q := num / den) in *. set (r := num mod den) in *.
  destruct (Z.compare_spec (2 * r) den) as [C | C | C];
    [destruct (Z.even q) | |]; nia.
Qed.

Lemma filter_app (p : ascii -> bool) (a b : string) :
  filter p (a ++ b) = filter p a ++ filter p b.
Proof.
  induction a as [|c a IH]; simpl; [reflexivity |].
  destruct (p c); simpl; now rewrite IH.
Qed.

Lemma filter_all (p : ascii -> bool) (s : string) :
  forallb p s = true -> filter p s = s.
Proof.
  induction s as [|c s IH]; simpl; [reflexivity |].
  intros H. apply andb_true_iff in H. destruct H as [Hc Hs].
  now rewrite Hc, IH.
Qed.

(** Without its point, the text of [point] is the zero-filled numeral. *)
Lemma point_digits (prec : nat) (n : Z) :
  0 <= n ->
  digits_only (point (S prec) n) = rjust (S (S prec)) "0" (of_int n).
Proof.
  intros Hn. unfold point, digits_only.
  set (ds := rjust (S (S prec)) "0" (of_int n)).
  assert (Hlen : (S (S prec) <= String.length ds)%nat)
    by (unfold ds; rewrite length_rjust; lia).
  assert (Hd : forallb is_digit ds = true)
    by (apply forallb_rjust; [reflexivity | now apply of_int_digits]).
  rewrite !filter_app.
  rewrite (filter_all _ _ (forallb_substring _ ds _ _ Hd)).
  rewrite (filter_all _ _ (forallb_substring _ ds _ _ Hd)).
  change (filter is_digit ".") with "". cbn [append].
  pose proof (substring_split ds (String.length ds - S prec) ltac:(lia)) as Sp.
  replace (String.length ds - (String.length ds - S prec))%nat
    with (S prec) in Sp by lia.
  exact Sp.
Qed.

(** X19. The digits printed for a finite value, read as an integer [N], are
    the value scaled by ten to the number of decimals and rounded to the
    nearest integer: for a value of magnitude [m * 2^e], [N] is within one
    half of [m * 2^e * 10^prec].  The printed number is therefore off by
    at most half a unit of its last decimal. *)
Theorem printed_value_accuracy :
  forall (prec : nat) (x : float) (s : bool) (m : positive) (e : Z),
    Prim2SF x = S754_finite s m e ->
    exists body N,
      fixed (S prec) x = sign s ++ body
      /\ int_of_str (digits_only body) = Some N
      /\ 2 * Z.abs (N * 2 ^ Z.max 0 (- e)
                    - Z.pos m * 2 ^ Z.max 0 e * 10 ^ Z.of_nat (S prec))
         <= 2 ^ Z.max 0 (- e).
Proof.
  intros prec x s m e Hx.
  exists (point (S prec) (scaled (S prec) m e)), (scaled (S prec) m e).
  split; [unfold fixed; now rewrite Hx |].
  split.
  - rewrite point_digits by apply scaled_nonneg.
    apply int_of_str_rjust, scaled_nonneg.
  - unfold scaled.
    assert (0 < 10 ^ Z.of_nat (S prec)) by (apply Z.pow_pos_nonneg; lia).
    destruct (Z.leb_spec 0 e) as [He | He].
    + replace (Z.max 0 (- e)) with 0 by lia.
      replace (Z.max 0 e) with e by lia.
      change (2 ^ 0) with 1.
      replace (Z.pos m * 2 ^ e * 10 ^ Z.of_nat (S prec) * 1
               - Z.pos m * 2 ^ e * 10 ^ Z.of_nat (S prec)) with 0 by ring.
      simpl. lia.
    + replace (Z.max 0 (- e)) with (- e) by lia.
      replace (Z.max 0 e) with 0 by lia.
      change (2 ^ 0) with 1. rewrite Z.mul_1_r.
      apply round_half_even_close; [nia |].
      apply Z.pow_pos_nonneg; lia.
Qed.

Lemma printed_value_accuracy_example :
  Prim2SF (-42.3)%float = S754_finite true 5953195757430374 (-47)
  /\ fixed 1 (-42.3)%float = "-42.3"
  /\ exists body N,
      fixed 1 (-42.3)%float = sign true ++ body
      /\ int_of_str (digits_only body) = Some N
      /\ 2 * Z.abs (N * 2 ^ Z.max 0 (- -47)
                    - 5953195757430374 * 2 ^ Z.max 0 (-47) * 10 ^ Z.of_nat 1)
         <= 2 ^ Z.max 0 (- -47).
Proof.
  split; [vm_compute; reflexivity |]. split; [vm_compute; reflexivity |].
  apply (printed_value_accuracy 0 (-42.3)%float true 5953195757430374 (-47)).
  vm_compute. reflexivity.
Defined.

End MessageFacts.

(** ** The signal strength in the message *)

Module RssiLagClaims.
Import PyStr PyStrFacts PyFmt PyFmtFacts Main MainFacts RunFacts MessageFacts.

(** The signal strength field never holds a space, finite or not. *)
Lemma rssi_field_no_space (x : float) :
  forallb (fun c => negb (is_space c)) (pct_f 3 1 (PyFloat x)) = true.
Proof.
  destruct (is_finite x) eqn:F.
  - rewrite (pct_f_exact 3 0 (PyFloat x) F) by lia. cbn [to_float].
    apply (forallb_impl _ _ _ numeral_not_space), fixed_finite_chars, F.
  - unfold pct_f. cbn [to_float].
    destruct (fixed_nonfinite 1 x F) as [-> | [-> | ->]]; reflexivity.
Qed.

Lemma observe_eq {W : Type} `{Board W} (d : list Byte.byte) (w : W) :
  observe d w
  = if fst (send_with_ack d w)
    then Acknowledged (fst (rssi (snd (send_with_ack d w))))
    else Exhausted.
Proof. unfold observe. now destruct (send_with_ack d w) as [[|] w']. Qed.

(** C6. The second field of the message of an iteration is the text of
    [last_rssi] as it is when the iteration begins, printed with one
    decimal, or [0.0] when there is none; neither it nor the counter
    before it holds a space.  Whatever the radio does with that message
    (acknowledged or not, with whatever signal strength), the payload
    handed to it is this same text.  The signal strength of an
    acknowledgment shows in the second field of the next message; after a
    failed delivery the next message repeats the field. *)
Theorem payload_uses_previous_rssi :
  (forall (W : Type) (raw : W -> (float * float * float) * W)
          (v : Vars) (w : W),
   let t := fst (fst (fst (sample raw w))) in
   let p := snd (fst (fst (sample raw w))) in
   let h := snd (fst (sample raw w)) in
   let field := match last_rssi v with
                | Some x => pct_f 3 1 (PyFloat x)
                | None => "0.0"
                end in
   let text := " " ++ pct_d (counter v) ++ "  " ++ field ++ "  "
               ++ pct_f 2 2 (PyFloat t) ++ "  " ++ pct_f 4 2 (PyFloat p)
               ++ "  " ++ pct_f 2 2 (PyFloat h) ++ "  "
               ++ pct_f 3 6 (PyFloat (altitude p)) in
   msg (counter v) (last_rssi v) t p h (altitude p) = Some text
   /\ forallb (fun c => negb (is_space c)) (pct_d (counter v)) = true
   /\ forallb (fun c => negb (is_space c)) field = true
   /\ forall (send : list Byte.byte -> W -> bool * W) (rs : W -> float * W),
      exists v' w' tr,
        @loop_body W (Build_Board W raw send rs) v w = Some (v', w', tr)
        /\ sent_payloads tr = [to_bytes text])
  /\ (forall (W : Type) (B : Board W) (v : Vars) (w : W),
      exists text v1 w1 tr1 text' v2 w2 tr2,
        let t := fst (fst (fst (sample raw_values w1))) in
        let p := snd (fst (fst (sample raw_values w1))) in
        let h := snd (fst (sample raw_values w1)) in
        let outcome := observe (to_bytes text) (snd (sample raw_values w)) in
        let field' := match outcome with
                      | Acknowledged x => pct_f 3 1 (PyFloat x)
                      | Exhausted =>
                          match last_rssi v with
                          | Some x => pct_f 3 1 (PyFloat x)
                          | None => "0.0"
                          end
                      end in
        loop_body v w = Some (v1, w1, tr1)
        /\ sent_payloads tr1 = [to_bytes text]
        /\ loop_body v1 w1 = Some (v2, w2, tr2)
        /\ sent_payloads tr2 = [to_bytes text']
        /\ msg (counter v + 1)
             match outcome with
             | Acknowledged x => Some x
             | Exhausted => last_rssi v
             end
             t p h (altitude p) = Some text'
        /\ text' = " " ++ pct_d (counter v + 1) ++ "  " ++ field' ++ "  "
                   ++ pct_f 2 2 (PyFloat t) ++ "  " ++ pct_f 4 2 (PyFloat p)
                   ++ "  " ++ pct_f 2 2 (PyFloat h) ++ "  "
                   ++ pct_f 3 6 (PyFloat (altitude p))).
Proof.
  split.
  - intros W raw v w t p h field text.
    assert (E : msg (counter v) (last_rssi v) t p h (altitude p) = Some text).
    { rewrite msg_eq. unfold text, field.
      destruct (last_rssi v) as [x|]; [reflexivity |].
      change (pct_f 3 1 (rssi_or_zero None)) with "0.0". reflexivity. }
    split; [exact E |].
    split; [apply (forallb_impl _ _ _ numeral_not_space), pct_d_chars |].
    split.
    + unfold field. destruct (last_rssi v) as [x|];
        [apply rssi_field_no_space | reflexivity].
    + intros send rs.
      destruct (@loop_body_eq W (Build_Board W raw send rs) v w)
        as (text0 & w' & line & E' & L).
      cbn [raw_values] in E'. fold t p h in E'. rewrite E in E'.
      injection E' as <-.
      do 3 eexists. split; [exact L | reflexivity].
  - intros W B v w.
    destruct (loop_body_eq v w) as (text & w1 & line & _ & L).
    match type of L with _ = Some (?v1, _, _) =>
      destruct (loop_body_eq v1 w1) as (text' & w2 & line' & E' & L') end.
    cbn [counter last_rssi] in E'.
    exists text. do 3 eexists. exists text'. do 3 eexists. cbv zeta.
    split; [exact L |]. split; [reflexivity |].
    split; [exact L' |]. split; [reflexivity |].
    split; [exact E' |].
    rewrite msg_eq in E'. injection E' as <-.
    destruct (observe (to_bytes text) (snd (sample raw_values w))) as [x|];
      [reflexivity |].
    destruct (last_rssi v) as [x|]; [reflexivity |].
    change (pct_f 3 1 (rssi_or_zero None)) with "0.0". reflexivity.
Qed.

End RssiLagClaims.
